(** * DevIoT gateway SDK: thing registry, action dispatch, registration loop

    A shallow embedding of [gateway.go], [thing.go] and [mqtt_connector.go].
    Go code that mutates the gateway is written as a function returning the
    new gateway together with the trace of what it did (log lines, handler
    invocations, MQTT sends) and whether it returned or panicked.

    The Go runtime and the libraries the code calls ([reflect], [fmt],
    [strings], [net/url], the MQTT client) are modelled as far as the code
    depends on them; what is implementation-dependent or not spelled out is
    a field of the [Platform] class. *)

From Stdlib Require Import ZArith String Ascii List Lia DecimalString.
From Stdlib Require Import SpecFloat.
From stdpp Require Import base option list gmap strings.

Open Scope string_scope.
Open Scope Z_scope.

(** ** The [strings] package, on byte strings *)

Module GoStrings.

(** [strings.Replace(s, old, new, -1)] for a one-byte [old]: every
    occurrence is replaced, left to right. *)
Fixpoint ReplaceAll (s : string) (old : ascii) (new : string) : string :=
  match s with
  | EmptyString => EmptyString
  | String c rest =>
      if Ascii.eqb c old then new ++ ReplaceAll rest old new
      else String c (ReplaceAll rest old new)
  end.

Definition lower_byte (c : ascii) : ascii :=
  let n := nat_of_ascii c in
  if (65 <=? n)%nat && (n <=? 90)%nat then ascii_of_nat (n + 32) else c.

(** [strings.ToLower] on ASCII letters; other bytes are kept. *)
Fixpoint ToLower (s : string) : string :=
  match s with
  | EmptyString => EmptyString
  | String c rest => String (lower_byte c) (ToLower rest)
  end.

(** [strings.Split(s, sep)] for a one-byte [sep]; the result is never
    empty. [cur] is the part read so far. *)
Fixpoint split_go (s : string) (sep : ascii) (cur : string) : list string :=
  match s with
  | EmptyString => [cur]
  | String c rest =>
      if Ascii.eqb c sep then cur :: split_go rest sep EmptyString
      else split_go rest sep (cur ++ String c EmptyString)
  end.

Definition Split (s : string) (sep : ascii) : list string :=
  split_go s sep EmptyString.

(** Does the byte occur in the string? *)
Fixpoint contains (s : string) (c : ascii) : bool :=
  match s with
  | EmptyString => false
  | String d rest => Ascii.eqb d c || contains rest c
  end.

End GoStrings.

(** ** The [reflect] package: kinds and types *)

Module Reflect.

Inductive Kind :=
| Bool | Int | Int8 | Int16 | Int32 | Int64
| Uint | Uint8 | Uint16 | Uint32 | Uint64 | Uintptr
| Float32 | Float64 | Complex64 | Complex128
| Array | Chan | Func | Interface | Map | Pointer | Slice
| String | Struct | UnsafePointer.

#[global] Instance Kind_eq_dec : EqDecision Kind.
Proof. solve_decision. Defined.

#[local] Set Warnings "-register-all".

(** A [reflect.Type]: its kind, what [String()] prints, and the element
    type of a pointer, slice, array, map or channel type. *)
Inductive Type_ :=
| mkType (kind : Kind) (str : string) (elem : option Type_).

Definition Kind_of (t : Type_) : Kind := let 'mkType k _ _ := t in k.
Definition String_of (t : Type_) : string := let 'mkType _ s _ := t in s.

Definition has_elem (k : Kind) : bool :=
  match k with
  | Array | Chan | Map | Pointer | Slice => true
  | _ => false
  end.

(** [Type.Elem()]: panics (here [None]) when the kind is not Array, Chan,
    Map, Pointer or Slice. *)
Definition Elem (t : Type_) : option Type_ :=
  let 'mkType k _ e := t in
  if has_elem k then e else None.

(** A type as reflect builds them: an element type exactly for the five
    kinds that have one. *)
Fixpoint wf (t : Type_) : bool :=
  let 'mkType k _ e := t in
  match e with
  | Some t' => has_elem k && wf t'
  | None => negb (has_elem k)
  end.

(** Type identity. *)
Fixpoint eqb (a b : Type_) : bool :=
  let 'mkType ka sa ea := a in
  let 'mkType kb sb eb := b in
  bool_decide (ka = kb) && String.eqb sa sb &&
  match ea, eb with
  | Some a', Some b' => eqb a' b'
  | None, None => true
  | _, _ => false
  end.

(** The predeclared types. *)
Definition basic (k : Kind) (name : string) : Type_ := mkType k name None.
Definition bool_t := basic Bool "bool".
Definition float32_t := basic Float32 "float32".
Definition float64_t := basic Float64 "float64".
Definition string_t := basic String "string".
Definition empty_interface := basic Interface "interface {}".
Definition ptr_to (t : Type_) : Type_ :=
  mkType Pointer ("*" ++ String_of t) (Some t).

End Reflect.

(** ** Go values held in an [interface{}] *)

(** The ten integer types [convert] produces. *)
Inductive ikind := I | I8 | I16 | I32 | I64 | U | U8 | U16 | U32 | U64.

Definition ikind_signed (k : ikind) : bool :=
  match k with
  | I | I8 | I16 | I32 | I64 => true
  | _ => false
  end.

Definition ikind_type (k : ikind) : Reflect.Type_ :=
  match k with
  | I => Reflect.basic Reflect.Int "int"
  | I8 => Reflect.basic Reflect.Int8 "int8"
  | I16 => Reflect.basic Reflect.Int16 "int16"
  | I32 => Reflect.basic Reflect.Int32 "int32"
  | I64 => Reflect.basic Reflect.Int64 "int64"
  | U => Reflect.basic Reflect.Uint "uint"
  | U8 => Reflect.basic Reflect.Uint8 "uint8"
  | U16 => Reflect.basic Reflect.Uint16 "uint16"
  | U32 => Reflect.basic Reflect.Uint32 "uint32"
  | U64 => Reflect.basic Reflect.Uint64 "uint64"
  end.

(** A value of dynamic type: what [json.Unmarshal] puts into a
    [map[string]interface{}] (nil, bool, float64, string, arrays and objects),
    what [convert] returns (sized integers, float32), and any other Go value,
    which the code only passes on: it is known by its dynamic type and by
    what [%v] prints for it. *)
Inductive value :=
| VNil
| VBool (b : bool)
| VInt (k : ikind) (n : Z)
| VFloat32 (f : spec_float)
| VFloat64 (f : spec_float)
| VString (s : string)
| VOpaque (t : Reflect.Type_) (shown : string).

(** [reflect.TypeOf]: [None] is the nil [Type] of a nil interface. *)
Definition TypeOf (v : value) : option Reflect.Type_ :=
  match v with
  | VNil => None
  | VBool _ => Some Reflect.bool_t
  | VInt k _ => Some (ikind_type k)
  | VFloat32 _ => Some Reflect.float32_t
  | VFloat64 _ => Some Reflect.float64_t
  | VString _ => Some Reflect.string_t
  | VOpaque t _ => Some t
  end.

(** A decoded JSON array and a decoded JSON object. *)
Definition slice_t : Reflect.Type_ :=
  Reflect.mkType Reflect.Slice "[]interface {}" (Some Reflect.empty_interface).
Definition map_t : Reflect.Type_ :=
  Reflect.mkType Reflect.Map "map[string]interface {}" (Some Reflect.empty_interface).

(** ** Errors and panics *)

Inductive error :=
| TypeAssertionError (dynamic : option Reflect.Type_) (asserted : Reflect.Type_)
    (* runtime: interface conversion: interface {} is X, not Y *)
| BoundsError (index len : nat)
    (* runtime: index out of range [index] with length len *)
| NilDereference
    (* runtime: invalid memory address or nil pointer dereference *)
| ExpectedType (target : Reflect.Type_) (got : option Reflect.Type_)
    (* fmt.Errorf("expected type: %v, got %v", target, reflect.TypeOf(value)) *)
| LibraryError (msg : string).
    (* an error returned by url.Parse, strconv.Atoi or the MQTT client *)

(** What [panic] was called with: a runtime error (which implements
    [error]) or a plain string, as [reflect] does. *)
Inductive panic_value :=
| PanicError (e : error)
| PanicString (s : string).

(** Running a piece of Go code: it yields a value or panics. *)
Inductive exec (A : Type) :=
| Normal (a : A)
| Panics (p : panic_value).
Arguments Normal {A} a.
Arguments Panics {A} p.

(** ** The platform *)

(** What the Go specification leaves to the implementation, and library
    functions whose results the code only passes on. *)
Class Platform := {
  (** the size of [int] and [uint] in bits: 32 or 64 *)
  intSize : Z;
  (** the result of a float-to-integer conversion when the truncated value
      is not representable in the target type (or the float is an infinity
      or a NaN): "the conversion succeeds but the result value is
      implementation-dependent" *)
  overflowCast : ikind -> spec_float -> Z;
  (** [strconv.FormatFloat(f, 'g', -1, bitSize)] for the floats
      [FormatFloat] below does not cover (fractions and large integers) *)
  formatOther : Z -> spec_float -> string;
  (** [Type.AssignableTo] for two types that are not identical: interface
      satisfaction and identical underlying types *)
  assignableOther : Reflect.Type_ -> Reflect.Type_ -> bool;
  (** [url.Parse(s)]: the [Host] part of the URL, or the parse error *)
  urlHost : string -> string + error;
  (** [net.SplitHostPort], errors dropped: host and port, both empty on
      failure *)
  splitHostPort : string -> string * string;
  (** [strconv.Atoi] *)
  atoi : string -> Z + error;
  (** [json.Marshal] of a telemetry mapping, errors dropped *)
  jsonMarshal : gmap string value -> string;
  (** [json.Unmarshal] of a message payload into a mapping *)
  jsonUnmarshal : string -> gmap string value + error;
  (** does [http.NewRequest("POST", url, body)] build a request? (it
      returns nil and an error when the URL does not parse) *)
  newRequestOK : string -> bool
}.

(** ** Numeric conversions *)

Section Conversions.
Context `{Platform}.

Definition ikind_bits (k : ikind) : Z :=
  match k with
  | I | U => intSize
  | I8 | U8 => 8
  | I16 | U16 => 16
  | I32 | U32 => 32
  | I64 | U64 => 64
  end.

Definition ikind_min (k : ikind) : Z :=
  if ikind_signed k then - 2 ^ (ikind_bits k - 1) else 0.

Definition ikind_max (k : ikind) : Z :=
  if ikind_signed k then 2 ^ (ikind_bits k - 1) - 1 else 2 ^ ikind_bits k - 1.

Definition in_range (k : ikind) (z : Z) : bool :=
  (ikind_min k <=? z) && (z <=? ikind_max k).

(** Reduction of an integer into the range of the type (two's complement). *)
Definition wrap (k : ikind) (z : Z) : Z :=
  if ikind_signed k
  then (z + 2 ^ (ikind_bits k - 1)) mod 2 ^ ikind_bits k - 2 ^ (ikind_bits k - 1)
  else z mod 2 ^ ikind_bits k.

(** The integer part of a finite float, the fraction discarded (truncation
    towards zero); [None] for infinities and NaN. *)
Definition truncate (f : spec_float) : option Z :=
  match f with
  | S754_zero _ => Some 0
  | S754_finite s m e => Some (cond_Zopp s (Z.shiftl (Zpos m) e))
  | S754_infinity _ | S754_nan => None
  end.

(** The conversions [int(x)], [int8(x)], ..., [uint64(x)] of a float64 [x]. *)
Definition float_to_int (k : ikind) (f : spec_float) : Z :=
  match truncate f with
  | Some z => if in_range k z then z else wrap k (overflowCast k f)
  | None => wrap k (overflowCast k f)
  end.

(** The conversion [float32(x)] of a float64 [x]: rounding to nearest even
    in binary32. *)
Definition float_to_float32 (f : spec_float) : spec_float :=
  match f with
  | S754_finite s m e => binary_round 24 128 s m e
  | _ => f
  end.

End Conversions.

(** The float64 with the value of a positive integer (exact below 2^53). *)
Definition float64_of_pos (p : positive) : spec_float :=
  binary_round 53 1024 false p 0.

(** ** The [%v] verb of [fmt] *)

Section Fmt.
Context `{Platform}.

Definition decimal (z : Z) : string := NilZero.string_of_int (Z.to_int z).

(** The integer a finite float stands for, when it is one. *)
Definition integral (m : positive) (e : Z) : option Z :=
  if 0 <=? e then Some (Z.shiftl (Zpos m) e)
  else if Zpos m mod 2 ^ (- e) =? 0 then Some (Z.shiftl (Zpos m) e)
  else None.

(** Digits with the trailing zeros removed; [rev_digits] is reversed. *)
Fixpoint strip_zeros (rev_digits : list ascii) : list ascii :=
  match rev_digits with
  | c :: rest => if Ascii.eqb c "0" then strip_zeros rest else rev_digits
  | [] => []
  end.

Definition two_digits (n : Z) : string :=
  if n <? 10 then "0" ++ decimal n else decimal n.

(** ['g'] with the shortest precision for a positive integer [n] below
    2^mant, whose shortest digits are its decimal digits without the
    trailing zeros: [%f] while the decimal exponent is below 6, [%e] from
    there on, as [1e+06] and [1.234567e+06]. *)
Definition format_integer (n : Z) : string :=
  let ds := decimal n in
  let exp := Z.of_nat (String.length ds) - 1 in
  if exp <? 6 then ds
  else
    match rev (strip_zeros (rev (list_ascii_of_string ds))) with
    | [] => ds
    | d :: frac =>
        String d (match frac with
                  | [] => ""
                  | _ => "." ++ string_of_list_ascii frac
                  end)
        ++ "e+" ++ two_digits exp
    end.

(** [strconv.FormatFloat(f, 'g', -1, bitSize)], which [%v] uses for floats;
    [mant] is the number of mantissa bits (53 or 24). *)
Definition FormatFloat (bitSize mant : Z) (f : spec_float) : string :=
  match f with
  | S754_nan => "NaN"
  | S754_infinity false => "+Inf"
  | S754_infinity true => "-Inf"
  | S754_zero false => "0"
  | S754_zero true => "-0"
  | S754_finite s m e =>
      match integral m e with
      | Some n =>
          if n <? 2 ^ mant
          then (if s then "-" else "") ++ format_integer n
          else formatOther bitSize f
      | None => formatOther bitSize f
      end
  end.

(** [fmt.Sprintf("%v", v)] *)
Definition Sprint (v : value) : string :=
  match v with
  | VNil => "<nil>"
  | VBool true => "true"
  | VBool false => "false"
  | VInt _ n => decimal n
  | VFloat32 f => FormatFloat 32 24 f
  | VFloat64 f => FormatFloat 64 53 f
  | VString s => s
  | VOpaque _ shown => shown
  end.

End Fmt.

(** ** thing.go: the capability model *)

Definition PropertyTypeInt : Z := 0.
Definition PropertyTypeString : Z := 1.
Definition PropertyTypeBool : Z := 2.
Definition PropertyTypeColor : Z := 3.

Record Property := {
  Property_Name : string;
  Property_Type : Z;
  Property_Value : value;
  Property_Range : list value;
  Property_Unit : string;
  Property_Description : string
}.

Record Action := {
  Action_Name : string;
  Parameters : list Property
}.

Record Thing := {
  Id : string;
  Thing_Name : string;
  Thing_Kind : string;
  Actions : list Action;
  Properties : list Property
}.

Definition AddParameter (a : Action) (p : Property) : Action :=
  {| Action_Name := Action_Name a; Parameters := (Parameters a ++ [p])%list |}.

Definition AddAction (t : Thing) (a : Action) : Thing :=
  {| Id := Id t; Thing_Name := Thing_Name t; Thing_Kind := Thing_Kind t;
     Actions := (Actions t ++ [a])%list; Properties := Properties t |}.

Definition AddProperty (t : Thing) (p : Property) : Thing :=
  {| Id := Id t; Thing_Name := Thing_Name t; Thing_Kind := Thing_Kind t;
     Actions := Actions t; Properties := (Properties t ++ [p])%list |}.

(** The first action of that name, in insertion order. *)
Fixpoint find_action (l : list Action) (name : string) : option Action :=
  match l with
  | [] => None
  | a :: rest =>
      if String.eqb (Action_Name a) name then Some a else find_action rest name
  end.

Definition FindAction (t : Thing) (name : string) : option Action :=
  find_action (Actions t) name.

(** A method as [reflect] shows it: its name and the types of its
    parameters after the receiver. Only exported methods are in the method
    set that [reflect] exposes. *)
Record Method := {
  Method_Name : string;
  Method_In : list Reflect.Type_
}.

(** [method.Type.NumIn()]: the receiver counts. *)
Definition NumIn (m : Method) : nat := S (length (Method_In m)).

(** [method.Type.In(i)] for [1 <= i < NumIn()]. *)
Definition In_ (m : Method) (i : nat) : option Reflect.Type_ :=
  Method_In m !! (i - 1)%nat.

(** A handler object behind the [Instance] interface: its dynamic type, the
    exported methods of that type, and what its [Init] does to the thing it
    is given. *)
Record Instance := {
  dynType : Reflect.Type_;
  methods : list Method;
  Init : Thing -> Thing
}.

(** [reflect.TypeOf(instance).MethodByName(name)] *)
Fixpoint method_by_name (l : list Method) (name : string) : option Method :=
  match l with
  | [] => None
  | m :: rest =>
      if String.eqb (Method_Name m) name then Some m else method_by_name rest name
  end.

Definition MethodByName (i : Instance) (name : string) : option Method :=
  method_by_name (methods i) name.

Record wrapper := {
  thing : Thing;
  instance : Instance
}.

(** ** mqtt_connector.go and gateway.go: the state *)

(** The MQTT client, an interface of the MQTT library: whether it is
    connected, and the error (if any) of the token of a publish. *)
Record Client := {
  IsConnected : bool;
  publishError : string -> string -> option error
}.

Record MqttConnector := {
  DataTopic : string;
  ActionTopic : string;
  connectorServer : string;
  client : option Client
}.

Definition defaultPort : Z := 1883.

Definition GatewayModeHttpPull : Z := 0.
Definition GatewayModeHttpPush : Z := 1.
Definition GatewayModeMqtt : Z := 2.

Record Gateway := {
  Name : string;
  Kind : string;
  Host : string;
  Port : Z;
  Data : string;
  Action_ : string;
  Account : string;
  Mode : Z;
  Things : gmap string wrapper;
  connector : option MqttConnector;
  deviotServer : string;
  registered : Z
}.

(** ** What the code does to the outside *)

Inductive logline :=
| LogAlreadyRegistered (id : string)
    (* "Thing %s has already been registered" *)
| LogRegistered (id name kind : string)
    (* "Thing %s.%s(%v) registered" *)
| LogDeregistered (id name kind : string)
    (* "Thing %s.%s(%s) deregistered" *)
| LogNotRegistered (id : string)
    (* "Thing %s not registered yet" *)
| LogThingNotAvailable (id : value)
    (* "Illegal message, thing id/name(%v) not available" *)
| LogActionNotAvailable (action : value)
    (* "Illegal message, thing action(%v) not available" *)
| LogMethodNotAvailable (action : value)
    (* "Illegal message, thing method(%v) not available" *)
| LogArgumentsMismatch (action : value) (numIn nparams : nat)
    (* "Illegal message, thing method(%v) arguments(%d:%d) does not match" *)
| LogError (e : error)
    (* "%v" of an error *)
| LogRegisterFailed (name : string) (reason : error + string)
    (* "Failed to register gateway service %s - %v" *)
| LogRegisteredTo (server : string)
    (* "Registered gateway service to %s" *)
| LogUnmarshalFailed (payload : string) (e : error).
    (* "Failed to unmarshal message %s - %v" *)

(** The registration document posted to the management server. *)
Record Model := {
  model_name : string;
  model_kind : string;
  model_mode : Z;
  model_owner : string;
  model_host : string;
  model_port : Z;
  model_data : string;
  model_action : string;
  model_sensors : list Thing
}.

Inductive event :=
| Log (l : logline)
| InitCall (i : Instance) (t : Thing)
    (* instance.Init(&t) *)
| MethodCall (receiver : Instance) (name : string) (args : list value)
    (* method.Func.Call(args): the receiver and the arguments after it *)
| MqttPublish (topic : string) (qos : Z) (retained : bool) (payload : string)
| HttpPost (url : string) (body : Model).

Inductive outcome :=
| Returned
| Panicked (p : panic_value).

Definition is_log (e : event) : bool :=
  match e with Log _ => true | _ => false end.

Definition is_method_call (e : event) : bool :=
  match e with MethodCall _ _ _ => true | _ => false end.

Definition is_init_call (e : event) : bool :=
  match e with InitCall _ _ => true | _ => false end.

(** ** gateway.go: the thing registry *)

Definition with_Things (g : Gateway) (things : gmap string wrapper) : Gateway :=
  {| Name := Name g; Kind := Kind g; Host := Host g; Port := Port g;
     Data := Data g; Action_ := Action_ g; Account := Account g;
     Mode := Mode g; Things := things; connector := connector g;
     deviotServer := deviotServer g; registered := registered g |}.

Definition with_registered (g : Gateway) (r : Z) : Gateway :=
  {| Name := Name g; Kind := Kind g; Host := Host g; Port := Port g;
     Data := Data g; Action_ := Action_ g; Account := Account g;
     Mode := Mode g; Things := Things g; connector := connector g;
     deviotServer := deviotServer g; registered := r |}.

(** The result of an operation on the gateway: the gateway afterwards, what
    happened on the way, and how it ended. *)
Record result := {
  gateway : Gateway;
  trace : list event;
  ending : outcome
}.

(** The last element of [strings.Split(kind, ".")], which is never empty. *)
Definition last_part (kind : string) : string :=
  List.last (GoStrings.Split kind ".") "".

(** [kind] as [Register] derives it from the element type of the instance's
    dynamic type. *)
Definition derive_kind (elem : Reflect.Type_) : string :=
  last_part (GoStrings.ToLower (Reflect.String_of elem)).

(** [Register]. The instance is an interface value: [None] is nil. *)
Definition Register (g : Gateway) (id name : string) (inst : option Instance)
  : result :=
  match Things g !! id with
  | Some _ =>
      {| gateway := g; trace := [Log (LogAlreadyRegistered id)];
         ending := Returned |}
  | None =>
      match inst with
      | None =>
          (* reflect.TypeOf(nil) is nil: calling Elem on it *)
          {| gateway := g; trace := [];
             ending := Panicked (PanicError NilDereference) |}
      | Some i =>
          match Reflect.Elem (dynType i) with
          | None =>
              {| gateway := g; trace := [];
                 ending := Panicked (PanicString
                   ("reflect: Elem of invalid type " ++
                    Reflect.String_of (dynType i))) |}
          | Some elem =>
              let kind := derive_kind elem in
              let t := {| Id := id; Thing_Name := name; Thing_Kind := kind;
                          Actions := []; Properties := [] |} in
              let t' := Init i t in
              {| gateway :=
                   with_Things g (<[id := {| thing := t'; instance := i |}]> (Things g));
                 trace := [InitCall i t;
                           Log (LogRegistered (Id t') (Thing_Name t') (Thing_Kind t'))];
                 ending := Returned |}
          end
      end
  end.

Definition IsRegistered (g : Gateway) : bool := registered g =? 1.

Definition setRegistered (g : Gateway) (r : bool) : Gateway :=
  if r then with_registered g 1 else with_registered g 0.

Definition Deregister (g : Gateway) (id : string) : result :=
  match Things g !! id with
  | Some w =>
      let t := thing w in
      {| gateway := with_Things g (delete id (Things g));
         trace := [Log (LogDeregistered id (Thing_Name t) (Thing_Kind t))];
         ending := Returned |}
  | None =>
      {| gateway := g; trace := [Log (LogNotRegistered id)]; ending := Returned |}
  end.

(** ** gateway.go: type coercion *)

Section Dispatch.
Context `{Platform}.

(** The type assertion [v.(float64)]. *)
Definition assert_float64 (v : value) : exec spec_float :=
  match v with
  | VFloat64 f => Normal f
  | _ => Panics (PanicError (TypeAssertionError (TypeOf v) Reflect.float64_t))
  end.

(** The type assertion [v.(string)]. *)
Definition assert_string (v : value) : exec string :=
  match v with
  | VString s => Normal s
  | _ => Panics (PanicError (TypeAssertionError (TypeOf v) Reflect.string_t))
  end.

Definition to_int (k : ikind) (v : value) : exec (value * option error) :=
  match assert_float64 v with
  | Normal f => Normal (VInt k (float_to_int k f), None)
  | Panics p => Panics p
  end.

(** The body of [convert], before the deferred function runs. *)
Definition convert_body (param : Z) (target : Reflect.Type_) (v : value)
  : exec (value * option error) :=
  match Reflect.Kind_of target with
  | Reflect.Int => to_int I v
  | Reflect.Int8 => to_int I8 v
  | Reflect.Int16 => to_int I16 v
  | Reflect.Int32 => to_int I32 v
  | Reflect.Int64 => to_int I64 v
  | Reflect.Uint => to_int U v
  | Reflect.Uint8 => to_int U8 v
  | Reflect.Uint16 => to_int U16 v
  | Reflect.Uint32 => to_int U32 v
  | Reflect.Uint64 => to_int U64 v
  | Reflect.Float32 =>
      match assert_float64 v with
      | Normal f => Normal (VFloat32 (float_to_float32 f), None)
      | Panics p => Panics p
      end
  | Reflect.Float64 =>
      match assert_float64 v with
      | Normal f => Normal (VFloat64 f, None)
      | Panics p => Panics p
      end
  | Reflect.String => Normal (VString (Sprint v), None)
  | _ => Normal (VNil, Some (ExpectedType target (TypeOf v)))
  end.

Definition error_t : Reflect.Type_ := Reflect.basic Reflect.Interface "error".

(** [convert]: the deferred function recovers a panic of the body and
    returns it as the error, by [err = r.(error)]; that assertion itself
    panics when the recovered value is not an error. *)
Definition convert (param : Z) (target : Reflect.Type_) (v : value)
  : exec (value * option error) :=
  match convert_body param target v with
  | Normal r => Normal r
  | Panics (PanicError e) => Normal (VNil, Some e)
  | Panics (PanicString _) =>
      Panics (PanicError (TypeAssertionError (Some Reflect.string_t) error_t))
  end.

End Dispatch.

(** ** gateway.go: the action dispatcher *)

(** A [reflect.Value]: the zero Value (which [make] fills the slice with,
    and which [reflect.ValueOf(nil)] returns), the receiver, or a value. *)
Inductive rvalue :=
| Zero
| OfInstance (i : Instance)
| OfValue (v : value).

Definition ValueOf (v : value) : rvalue :=
  match v with
  | VNil => Zero
  | _ => OfValue v
  end.

Definition is_zero (a : rvalue) : bool :=
  match a with Zero => true | _ => false end.

(** How the binding loop of [CallAction] ends: all slots bound, the
    dispatch given up with a logged conversion error, or a panic. *)
Inductive bound :=
| Bound (args : list rvalue)
| Abort (e : error)
| Crashed (p : panic_value).

Section CallAction.
Context `{Platform}.

(** [xt.AssignableTo(targ)] *)
Definition AssignableTo (xt targ : Reflect.Type_) : bool :=
  Reflect.eqb xt targ || assignableOther xt targ.

(** The check of the arguments after the receiver, from slot [i] on: the
    panic of the first one that is not assignable to its parameter. *)
Fixpoint check_args (m : Method) (i : nat) (args : list rvalue)
  : option panic_value :=
  match args with
  | [] => None
  | a :: rest =>
      match a, In_ m i with
      | OfValue v, Some targ =>
          match TypeOf v with
          | Some xt =>
              if AssignableTo xt targ then check_args m (S i) rest
              else Some (PanicString
                     ("reflect: Call using " ++ Reflect.String_of xt ++
                      " as type " ++ Reflect.String_of targ))
          | None => Some (PanicString "reflect: Call using zero Value argument")
          end
      | _, _ => Some (PanicString "reflect: Call with too many input arguments")
      end
  end.

Definition arg_value (a : rvalue) : value :=
  match a with OfValue v => v | _ => VNil end.

(** [method.Func.Call(args)], for [args] of length [NumIn], slot 0 holding
    the receiver: reflect panics on a zero Value and on an argument that is
    not assignable to its parameter; otherwise the method runs. *)
Definition Call (m : Method) (args : list rvalue) : list event * outcome :=
  if existsb is_zero args then
    ([], Panicked (PanicString "reflect: Call using zero Value argument"))
  else
    match args with
    | OfInstance recv :: rest =>
        match check_args m 1 rest with
        | None => ([MethodCall recv (Method_Name m) (arg_value <$> rest)], Returned)
        | Some p => ([], Panicked p)
        end
    | _ => ([], Panicked (PanicString "reflect: Call with too few input arguments"))
    end.

(** The loop [for i := 1; i < len(args); i++], with [todo] iterations left
    from index [i]. *)
Fixpoint bind_loop (data : gmap string value) (actionDef : Action) (m : Method)
    (i todo : nat) (args : list rvalue) : bound :=
  match todo with
  | O => Bound args
  | S todo' =>
      match Parameters actionDef !! (i - 1)%nat with
      | None =>
          Crashed (PanicError (BoundsError (i - 1) (length (Parameters actionDef))))
      | Some param =>
          match data !! Property_Name param with
          | None =>
              (* use default value *)
              bind_loop data actionDef m (S i) todo'
                (<[i := ValueOf (Property_Value param)]> args)
          | Some v =>
              match In_ m i with
              | None => Crashed (PanicString "reflect: Func index out of bounds")
              | Some target =>
                  match convert (Property_Type param) target v with
                  | Panics p => Crashed p
                  | Normal (_, Some err) => Abort err
                  | Normal (v', None) =>
                      bind_loop data actionDef m (S i) todo'
                        (<[i := ValueOf v']> args)
                  end
              end
          end
      end
  end.

(** The part of [CallAction] after the arity check. *)
Definition bind_and_call (w : wrapper) (data : gmap string value)
    (actionDef : Action) (m : Method) : list event * outcome :=
  let args := replicate (NumIn m) Zero in
  let args := <[0%nat := OfInstance (instance w)]> args in
  match bind_loop data actionDef m 1 (length args - 1) args with
  | Crashed p => ([], Panicked p)
  | Abort err => ([Log (LogError err)], Returned)
  | Bound args =>
      let args :=
        if (NumIn m =? length (Parameters actionDef) + 2)%nat then
          match data !! "payload" with
          | Some payload => <[(length args - 1)%nat := ValueOf payload]> args
          | None => args
          end
        else args in
      Call m args
  end.

(** [CallAction]: what it logs and invokes, and how it ends. It does not
    assign to any field of the gateway. *)
Definition dispatch (g : Gateway) (data : gmap string value)
  : list event * outcome :=
  let '(id, found) :=
    match data !! "id" with
    | Some id => (id, true)
    | None =>
        match data !! "name" with
        | Some id => (id, true)
        | None => (VNil, false)
        end
    end in
  if negb found then ([Log (LogThingNotAvailable id)], Returned)
  else
    match assert_string id with
    | Panics p => ([], Panicked p)
    | Normal ids =>
        match Things g !! ids with
        | None => ([Log (LogThingNotAvailable id)], Returned)
        | Some w =>
            match data !! "action" with
            | None => ([Log (LogActionNotAvailable VNil)], Returned)
            | Some action =>
                match assert_string action with
                | Panics p => ([], Panicked p)
                | Normal name =>
                    match FindAction (thing w) name with
                    | None => ([Log (LogActionNotAvailable action)], Returned)
                    | Some actionDef =>
                        match MethodByName (instance w) name with
                        | None => ([Log (LogMethodNotAvailable action)], Returned)
                        | Some m =>
                            if negb (NumIn m =? length (Parameters actionDef) + 1)%nat
                               && negb (NumIn m =? length (Parameters actionDef) + 2)%nat
                            then
                              ([Log (LogArgumentsMismatch action (NumIn m)
                                       (length (Parameters actionDef)))], Returned)
                            else bind_and_call w data actionDef m
                        end
                    end
                end
            end
        end
    end.

Definition CallAction (g : Gateway) (data : gmap string value) : result :=
  let '(tr, e) := dispatch g data in
  {| gateway := g; trace := tr; ending := e |}.

End CallAction.

(** ** mqtt_connector.go *)

Definition with_connection (g : Gateway) (host : string) (port : Z)
    (data action : string) : Gateway :=
  {| Name := Name g; Kind := Kind g; Host := host; Port := port;
     Data := data; Action_ := action; Account := Account g;
     Mode := GatewayModeMqtt; Things := Things g; connector := connector g;
     deviotServer := deviotServer g; registered := registered g |}.

Definition with_connector (g : Gateway) (c : MqttConnector) : Gateway :=
  {| Name := Name g; Kind := Kind g; Host := Host g; Port := Port g;
     Data := Data g; Action_ := Action_ g; Account := Account g;
     Mode := Mode g; Things := Things g; connector := Some c;
     deviotServer := deviotServer g; registered := registered g |}.

Definition with_Kind (g : Gateway) (kind : string) : Gateway :=
  {| Name := Name g; Kind := kind; Host := Host g; Port := Port g;
     Data := Data g; Action_ := Action_ g; Account := Account g;
     Mode := Mode g; Things := Things g; connector := connector g;
     deviotServer := deviotServer g; registered := registered g |}.

(** [fmt.Sprintf("/deviot/%s/%s/" + leaf, ns, name)] *)
Definition topic (ns name leaf : string) : string :=
  "/deviot/" ++ ns ++ "/" ++ name ++ "/" ++ leaf.

Definition namespace (account : string) : string :=
  let ns := GoStrings.ReplaceAll account "@" "" in
  if String.eqb ns "" then "_" else ns.

Section Connector.
Context `{Platform}.

(** [NewMqttConnector]: it writes host, port, mode and topics into the
    gateway it is given and returns the connector, or an error. *)
Definition NewMqttConnector (g : Gateway) (server : string)
  : (Gateway * MqttConnector) + error :=
  match urlHost server with
  | inr err => inr err
  | inl uHost =>
      let '(host, portStr) := splitHostPort uHost in
      let parsed :=
        if negb (String.eqb portStr "") then
          match atoi portStr with
          | inl port => inl (host, port)
          | inr err => inr err
          end
        else inl (uHost, defaultPort) in
      match parsed with
      | inr err => inr err
      | inl (host, port) =>
          let ns := namespace (Account g) in
          let dataTopic := topic ns (Name g) "data" in
          let actionTopic := topic ns (Name g) "action" in
          inl (with_connection g host port dataTopic actionTopic,
               {| DataTopic := dataTopic; ActionTopic := actionTopic;
                  connectorServer := server; client := None |})
      end
  end.

(** [Publish]: the sends it makes and the error it returns. *)
Definition Publish (c : MqttConnector) (data : gmap string value)
  : list event * option error :=
  match client c with
  | Some cl =>
      if IsConnected cl then
        let jsonData := jsonMarshal data in
        ([MqttPublish (DataTopic c) 0 false jsonData],
         publishError cl (DataTopic c) jsonData)
      else ([], None)
  | None => ([], None)
  end.

(** [SendData]: [g.connector.Publish(data)]; a gateway built without
    [NewGateway] has a nil connector. *)
Definition SendData (g : Gateway) (data : gmap string value)
  : exec (list event * option error) :=
  match connector g with
  | Some c => Normal (Publish c data)
  | None => Panics (PanicError NilDereference)
  end.

(** [onMessage]: decode the payload and dispatch it. *)
Definition onMessage (g : Gateway) (payload : string) : result :=
  match jsonUnmarshal payload with
  | inr err =>
      {| gateway := g; trace := [Log (LogUnmarshalFailed payload err)];
         ending := Returned |}
  | inl data => CallAction g data
  end.

(** ** gateway.go: construction *)

(** [NewGateway]; [opts] is a map that may be nil. *)
Definition NewGateway (name server connServer account : string)
    (opts : option (gmap string value)) : exec (Gateway + error) :=
  let name := GoStrings.ReplaceAll name "-" "_" in
  let g := {| Name := name; Kind := "device"; Host := ""; Port := 0;
              Data := ""; Action_ := ""; Account := account;
              Mode := GatewayModeMqtt; Things := ∅; connector := None;
              deviotServer := server; registered := 0 |} in
  let withKind :=
    match opts with
    | Some o =>
        match o !! "kind" with
        | Some kind =>
            match assert_string kind with
            | Normal k => Normal (with_Kind g k)
            | Panics p => Panics p
            end
        | None => Normal g
        end
    | None => Normal g
    end in
  match withKind with
  | Panics p => Panics p
  | Normal g =>
      match NewMqttConnector g connServer with
      | inr err => Normal (inr err)
      | inl (g', c) => Normal (inl (with_connector g' c))
      end
  end.

End Connector.

(** ** gateway.go: the registration loop of [Start] *)

(** What [client.Do(req)] gave: an error, or a response with its status. *)
Inductive post_result :=
| DoError (err : error)
| Response (StatusCode : Z) (Status : string).

(** The fields of the document that are read once, before the loop. *)
Definition model_of (g : Gateway) (sensors : list Thing) : Model :=
  {| model_name := Name g; model_kind := Kind g; model_mode := Mode g;
     model_owner := Account g; model_host := Host g; model_port := Port g;
     model_data := Data g; model_action := Action_ g;
     model_sensors := sensors |}.

(** The things of the registry, in the order the map happens to be
    ranged over. *)
Definition sensors_of (g : Gateway) : list Thing :=
  (thing ∘ snd) <$> map_to_list (Things g).

(** The log lines of one iteration, from the flag [first], the gateway
    before it and what the POST gave. *)
Definition heartbeat_logs (first : bool) (g : Gateway) (r : post_result)
  : list event :=
  match r with
  | DoError err =>
      if first || IsRegistered g
      then [Log (LogRegisterFailed (Name g) (inl err))] else []
  | Response code status =>
      if (200 <=? code) && (code <? 400) then
        if first || negb (IsRegistered g)
        then [Log (LogRegisteredTo (deviotServer g))] else []
      else
        if first || IsRegistered g
        then [Log (LogRegisterFailed (Name g) (inr status))] else []
  end.

(** Did the POST register the gateway? *)
Definition succeeded (r : post_result) : bool :=
  match r with
  | DoError _ => false
  | Response code _ => (200 <=? code) && (code <? 400)
  end.

Section Start.
Context `{Platform}.

Definition registration_url (g : Gateway) : string :=
  deviotServer g ++ "/api/v1/gateways".

(** One iteration of the loop, given what the POST gives: the gateway
    afterwards and the events. The error of [http.NewRequest] is overwritten
    unread; when there is one, [req] is nil and [req.Header.Set] panics. *)
Definition heartbeat (first : bool) (g : Gateway) (r : post_result)
  : exec (Gateway * list event) :=
  if newRequestOK (registration_url g) then
    Normal (setRegistered g (succeeded r),
            HttpPost (registration_url g) (model_of g (sensors_of g))
              :: heartbeat_logs first g r)
  else Panics (PanicError NilDereference).

(** The loop over the results of the successive POSTs: the gateway after
    the last iteration, the events of each iteration, and [Returned] when
    the results are used up (the loop itself has no exit) or the panic that
    ended it. [first] is true on entry and false from the second iteration
    on. *)
Fixpoint supervise (first : bool) (g : Gateway) (rs : list post_result)
  : Gateway * list (list event) * outcome :=
  match rs with
  | [] => (g, [], Returned)
  | r :: rest =>
      match heartbeat first g r with
      | Panics p => (g, [], Panicked p)
      | Normal (g', evs) =>
          let '(g'', later, e) := supervise false g' rest in
          (g'', evs :: later, e)
      end
  end.

(** The loop as the goroutine of [Start] runs it. *)
Definition registration_loop (g : Gateway) (rs : list post_result)
  : Gateway * list (list event) * outcome :=
  supervise true g rs.

End Start.

(** ** A platform and a lamp to run the code on *)

(** A 64-bit platform. The library functions are stand-ins that cover the
    inputs used below: an out-of-range conversion gives the smallest value
    of the type, only [interface{}] accepts a value of another type, and a
    server is written [host] or [host:port] after its scheme. *)
Definition sample_platform : Platform := {|
  intSize := 64;
  overflowCast := fun k _ => if ikind_signed k then - 2 ^ 63 else 0;
  formatOther := fun _ _ => "?";
  assignableOther := fun _ targ => Reflect.eqb targ Reflect.empty_interface;
  urlHost := fun s => inl s;
  splitHostPort := fun _ => ("", "");
  atoi := fun _ => inr (LibraryError "strconv.Atoi: parsing: invalid syntax");
  jsonMarshal := fun _ => "{}";
  jsonUnmarshal := fun _ => inl ∅;
  newRequestOK := fun _ => true
|}.

Definition seven : spec_float := float64_of_pos 7.

Definition mk_property (name : string) (type : Z) (v : value) : Property :=
  {| Property_Name := name; Property_Type := type; Property_Value := v;
     Property_Range := []; Property_Unit := ""; Property_Description := "" |}.

Definition on_param : Property := mk_property "on" PropertyTypeBool (VBool false).

Definition thing_ptr : Reflect.Type_ :=
  Reflect.ptr_to (Reflect.basic Reflect.Struct "gateway.Thing").

(** A handler of type pointer to [main.Lamp] with the methods [Init] and
    [method], the latter taking one bool; its [Init] declares the action
    [action] with the one parameter [on]. *)
Definition lamp (action method : string) : Instance := {|
  dynType := Reflect.ptr_to (Reflect.basic Reflect.Struct "main.Lamp");
  methods := [ {| Method_Name := "Init"; Method_In := [thing_ptr] |};
               {| Method_Name := method; Method_In := [Reflect.bool_t] |} ];
  Init := fun t => AddAction t {| Action_Name := action; Parameters := [on_param] |}
|}.

Definition empty_gateway : Gateway :=
  {| Name := "gw"; Kind := "device"; Host := ""; Port := 0; Data := "";
     Action_ := ""; Account := ""; Mode := GatewayModeMqtt; Things := ∅;
     connector := None; deviotServer := "http://deviot"; registered := 0 |}.

(** The gateway after [Register("lamp1", "Lamp", lamp)]. *)
Definition lamp_gateway (action method : string) : Gateway :=
  gateway (Register empty_gateway "lamp1" "Lamp" (Some (lamp action method))).

(** The envelope [{"id": "lamp1", "action": a, "on": true}]. *)
Definition envelope_on (a : string) : gmap string value :=
  <["id" := VString "lamp1"]> (<["action" := VString a]> (<["on" := VBool true]> ∅)).

(** The envelope [{"id": "lamp1", "action": a}]. *)
Definition envelope_default (a : string) : gmap string value :=
  <["id" := VString "lamp1"]> (<["action" := VString a]> ∅).

(** A dimmer with the method [SetLevel(int32)] and the action ["SetLevel"]
    with the one parameter [level]. *)
Definition level_param : Property := mk_property "level" PropertyTypeInt (VInt I32 0).

Definition dimmer (target : Reflect.Type_) : Instance := {|
  dynType := Reflect.ptr_to (Reflect.basic Reflect.Struct "main.Dimmer");
  methods := [ {| Method_Name := "Init"; Method_In := [thing_ptr] |};
               {| Method_Name := "SetLevel"; Method_In := [target] |} ];
  Init := fun t =>
    AddAction t {| Action_Name := "SetLevel"; Parameters := [level_param] |}
|}.

Definition dimmer_gateway (target : Reflect.Type_) : Gateway :=
  gateway (Register empty_gateway "dim1" "Dimmer" (Some (dimmer target))).

(** The envelope [{"id": "dim1", "action": "SetLevel", "level": v}]. *)
Definition envelope_level (v : value) : gmap string value :=
  <["id" := VString "dim1"]>
    (<["action" := VString "SetLevel"]> (<["level" := v]> ∅)).

(** A camera with the method [Snap(payload interface{})] and the action
    ["Snap"] without parameters: the method has one slot more than the
    action declares. *)
Definition camera : Instance := {|
  dynType := Reflect.ptr_to (Reflect.basic Reflect.Struct "main.Camera");
  methods := [ {| Method_Name := "Init"; Method_In := [thing_ptr] |};
               {| Method_Name := "Snap"; Method_In := [Reflect.empty_interface] |} ];
  Init := fun t => AddAction t {| Action_Name := "Snap"; Parameters := [] |}
|}.

Definition camera_gateway : Gateway :=
  gateway (Register empty_gateway "cam1" "Camera" (Some camera)).

(** The envelope [{"id": "cam1", "action": "Snap", "payload": "x"}]. *)
Definition envelope_snap : gmap string value :=
  <["id" := VString "cam1"]>
    (<["action" := VString "Snap"]> (<["payload" := VString "x"]> ∅)).

(** A connector whose client exists and is not connected. *)
Definition offline_client : Client :=
  {| IsConnected := false;
     publishError := fun _ _ => Some (LibraryError "not connected") |}.

Definition offline_connector : MqttConnector :=
  {| DataTopic := "/deviot/_/gw/data"; ActionTopic := "/deviot/_/gw/action";
     connectorServer := "tcp://broker:1883"; client := Some offline_client |}.

(** A handler whose dynamic type is the slice type [main.Strip], declared
    as a slice of int with a value receiver for [Init]. *)
Definition strip : Instance := {|
  dynType := Reflect.mkType Reflect.Slice "main.Strip"
               (Some (Reflect.basic Reflect.Int "int"));
  methods := [ {| Method_Name := "Init"; Method_In := [thing_ptr] |} ];
  Init := fun t => t
|}.

(** A handler passed by value: its dynamic type is the struct type
    [main.Lamp] itself. *)
Definition lamp_value : Instance := {|
  dynType := Reflect.basic Reflect.Struct "main.Lamp";
  methods := [ {| Method_Name := "Init"; Method_In := [thing_ptr] |} ];
  Init := fun t => t
|}.

(** ** Vocabulary of the properties *)

(** The target kinds [convert] has a case for. *)
Definition numeric (k : Reflect.Kind) : bool :=
  match k with
  | Reflect.Int | Reflect.Int8 | Reflect.Int16 | Reflect.Int32 | Reflect.Int64
  | Reflect.Uint | Reflect.Uint8 | Reflect.Uint16 | Reflect.Uint32
  | Reflect.Uint64 | Reflect.Float32 | Reflect.Float64 => true
  | _ => false
  end.

Definition supported (k : Reflect.Kind) : bool :=
  numeric k || bool_decide (k = Reflect.String).

Definition is_float64 (v : value) : bool :=
  match v with VFloat64 _ => true | _ => false end.

(** What [convert] returns: a value and no error, or nil and an error. *)
Definition well_formed_return (r : value * option error) : Prop :=
  (snd r = None /\ fst r <> VNil) \/ (fst r = VNil /\ exists e, snd r = Some e).

(** The same parameters under other declared types. *)
Definition retype (f : Z -> Z) (p : Property) : Property :=
  {| Property_Name := Property_Name p; Property_Type := f (Property_Type p);
     Property_Value := Property_Value p; Property_Range := Property_Range p;
     Property_Unit := Property_Unit p;
     Property_Description := Property_Description p |}.

Definition retype_action (f : Z -> Z) (a : Action) : Action :=
  {| Action_Name := Action_Name a; Parameters := retype f <$> Parameters a |}.

(** The id an envelope names: ["id"], or else ["name"]. *)
Definition resolved_id (data : gmap string value) : option value :=
  match data !! "id" with
  | Some id => Some id
  | None => data !! "name"
  end.

(** The envelope names, by strings, a registered thing, an action declared
    on it and a method of its instance. *)
Definition resolves (g : Gateway) (data : gmap string value)
    (w : wrapper) (a : Action) (m : Method) : Prop :=
  exists ids name,
    resolved_id data = Some (VString ids) /\
    Things g !! ids = Some w /\
    data !! "action" = Some (VString name) /\
    FindAction (thing w) name = Some a /\
    MethodByName (instance w) name = Some m.

(** The arity check of [CallAction] passes. *)
Definition arity_ok (a : Action) (m : Method) : Prop :=
  NumIn m = (length (Parameters a) + 1)%nat \/
  NumIn m = (length (Parameters a) + 2)%nat.

(** The values of ["id"], ["name"] and ["action"] the dispatcher asserts to
    be strings are strings. *)
Definition string_keys (data : gmap string value) : Prop :=
  (forall v, resolved_id data = Some v -> exists s, v = VString s) /\
  (forall v, data !! "action" = Some v -> exists s, v = VString s).

(** The number of log lines among the events. *)
Definition count_logs (evs : list event) : nat :=
  length (List.filter is_log evs).

(** The gateway after the loop has consumed the results [rs]. *)
Definition gateway_after `{Platform} (first : bool) (g : Gateway) (rs : list post_result)
  : Gateway :=
  (supervise first g rs).1.1.

(** The events of the iterations over [rs], one list per iteration. *)
Definition iterations `{Platform} (first : bool) (g : Gateway) (rs : list post_result)
  : list (list event) :=
  (supervise first g rs).1.2.

(** The dispatch invoked exactly one operation, [name], with the arguments
    [args] after the receiver. *)
Definition invoked_once_with (r : result) (name : string) (args : list value)
  : Prop :=
  exists recv, List.filter is_method_call (trace r) = [MethodCall recv name args].

(** The dispatch invoked nothing. *)
Definition invoked_nothing (r : result) : Prop :=
  List.filter is_method_call (trace r) = [].

(** ** Vocabulary of the further properties *)



(** The thing [Register] hands to [Init]: identity and kind, nothing
    declared yet. *)
Definition blank_thing (id name kind : string) : Thing :=
  {| Id := id; Thing_Name := name; Thing_Kind := kind;
     Actions := []; Properties := [] |}.

(** Every entry of the registry sits under the id of its thing. *)
Definition keys_match (g : Gateway) : Prop :=
  forall id w, Things g !! id = Some w -> Id (thing w) = id.

(** The value the binding loop puts into the slot of the declared parameter
    [p] of index [j]: the declared default when the envelope does not carry
    the parameter, else what [convert] makes of the envelope's value for
    the type of the method's parameter [j]; [None] when [convert] fails. *)
Definition bind_one `{Platform} (data : gmap string value) (m : Method)
    (j : nat) (p : Property) : option value :=
  match data !! Property_Name p with
  | None => Some (Property_Value p)
  | Some v =>
      match Method_In m !! j with
      | Some target =>
          match convert (Property_Type p) target v with
          | Normal (v', None) => Some v'
          | _ => None
          end
      | None => None
      end
  end.

(** Positional binding as a map over the declared parameters, from index
    [j] on: the list the loop is compared with. *)
Fixpoint bind_all `{Platform} (data : gmap string value) (m : Method)
    (j : nat) (ps : list Property) : option (list value) :=
  match ps with
  | [] => Some []
  | p :: rest =>
      match bind_one data m j p, bind_all data m (S j) rest with
      | Some v, Some vs => Some (v :: vs)
      | _, _ => None
      end
  end.


(** A device with the one method [Set], taking one argument of type
    [target], and the action ["Set"] with the one parameter [p]. *)
Definition device (p : Property) (target : Reflect.Type_) : Instance := {|
  dynType := Reflect.ptr_to (Reflect.basic Reflect.Struct "main.Device");
  methods := [ {| Method_Name := "Init"; Method_In := [thing_ptr] |};
               {| Method_Name := "Set"; Method_In := [target] |} ];
  Init := fun t => AddAction t {| Action_Name := "Set"; Parameters := [p] |}
|}.

Definition device_gateway (p : Property) (target : Reflect.Type_) : Gateway :=
  gateway (Register empty_gateway "dev1" "Device" (Some (device p target))).

Definition device_wrapper (p : Property) (target : Reflect.Type_) : wrapper :=
  {| thing := Init (device p target) (blank_thing "dev1" "Device" "device");
     instance := device p target |}.

(** The envelope [{"id": "dev1", "action": "Set"}] with further keys. *)
Definition envelope_set (more : gmap string value) : gmap string value :=
  <["id" := VString "dev1"]> (<["action" := VString "Set"]> more).

(** No action declared on a registered thing has a parameter of name [k]. *)
Definition not_a_parameter (g : Gateway) (k : string) : Prop :=
  forall ids w a p,
    Things g !! ids = Some w -> a ∈ Actions (thing w) -> p ∈ Parameters a ->
    Property_Name p <> k.

(** Two envelopes agree on what the dispatcher reads for the things of the
    gateway: the resolved id, the action, the payload and the declared
    parameters. *)
Definition agree (g : Gateway) (d1 d2 : gmap string value) : Prop :=
  resolved_id d1 = resolved_id d2 /\
  d1 !! "action" = d2 !! "action" /\
  d1 !! "payload" = d2 !! "payload" /\
  forall ids w a p,
    Things g !! ids = Some w -> a ∈ Actions (thing w) -> p ∈ Parameters a ->
    d1 !! Property_Name p = d2 !! Property_Name p.

(** A parameter without a declared default. *)
Definition level_required : Property := mk_property "level" PropertyTypeInt VNil.

(** The predeclared types [convert] returns values of. *)
Definition predeclared (t : Reflect.Type_) : Prop :=
  (exists k, t = ikind_type k) \/ t = Reflect.float32_t \/
  t = Reflect.float64_t \/ t = Reflect.string_t.

(** The magnitude of a finite float with the fraction dropped. *)
Definition magnitude (m : positive) (e : Z) : Z :=
  if 0 <=? e then Zpos m * 2 ^ e else Zpos m / 2 ^ (- e).

(** ** gateway.go and mqtt_connector.go: [Start] and [Stop] *)

(** The options [MqttConnector.Start] builds the client from. *)
Record ClientOptions := {
  Broker : string;
  ClientID : string;
  AutoReconnect : bool;
  CleanSession : bool
}.

Inductive lifecycle_log :=
| LogMqttConnected (server : string)
    (* "mqtt server %s connected" *)
| LogSubscribeFailed (topic : string) (e : error)
    (* "Failed to subscribe to topic %s - %v" *)
| LogStarted (name : string)
    (* "gateway service %s started" *)
| LogStopped (name : string).
    (* "gateway service %s stopped" *)

Inductive lifecycle_event :=
| NewClient (opts : ClientOptions)
| Connect
| Subscribe (topic : string) (qos : Z)
| Disconnect (quiesce : Z)
| SpawnRegistrationLoop
| LifecycleLog (l : lifecycle_log).

Definition with_client (c : MqttConnector) (cl : Client) : MqttConnector :=
  {| DataTopic := DataTopic c; ActionTopic := ActionTopic c;
     connectorServer := connectorServer c; client := Some cl |}.

Definition start_options (c : MqttConnector) (gatewayName : string)
  : ClientOptions :=
  {| Broker := connectorServer c; ClientID := gatewayName;
     AutoReconnect := true; CleanSession := false |}.

(** The [OnConnect] handler: it subscribes to the action topic and logs a
    failure of that; [subscribeErr] is the error of the token. *)
Definition onConnect (c : MqttConnector) (subscribeErr : option error)
  : exec (list lifecycle_event) :=
  match client c with
  | None => Panics (PanicError NilDereference)
  | Some _ =>
      Normal (Subscribe (ActionTopic c) 0 ::
              match subscribeErr with
              | Some e => [LifecycleLog (LogSubscribeFailed (ActionTopic c) e)]
              | None => []
              end)
  end.

(** [MqttConnector.Start]: [cl] is the client [mqtt.NewClient] makes and
    [connectErr] the error of the token of [Connect]. The client is stored
    before the connection is tried. *)
Definition MqttConnector_Start (c : MqttConnector) (gatewayName : string)
    (cl : Client) (connectErr : option error)
  : MqttConnector * list lifecycle_event * option error :=
  let c' := with_client c cl in
  match connectErr with
  | Some err => (c', [NewClient (start_options c gatewayName); Connect], Some err)
  | None =>
      (c', [NewClient (start_options c gatewayName); Connect;
            LifecycleLog (LogMqttConnected (connectorServer c))], None)
  end.

(** [MqttConnector.Stop] *)
Definition MqttConnector_Stop (c : MqttConnector)
  : exec (list lifecycle_event * option error) :=
  match client c with
  | None => Panics (PanicError NilDereference)
  | Some _ => Normal ([Disconnect 250], None)
  end.

(** [Gateway.Start]: the registration loop is spawned only when the
    connector has started. *)
Definition Gateway_Start (g : Gateway) (cl : Client) (connectErr : option error)
  : exec (Gateway * list lifecycle_event * option error) :=
  match connector g with
  | None => Panics (PanicError NilDereference)
  | Some c =>
      let '(c', evs, err) := MqttConnector_Start c (Name g) cl connectErr in
      match err with
      | Some e => Normal (with_connector g c', evs, Some e)
      | None =>
          Normal (with_connector g c',
                  (evs ++ [SpawnRegistrationLoop;
                           LifecycleLog (LogStarted (Name g))])%list,
                  None)
      end
  end.

(** [Gateway.Stop]: the events up to the return or the panic. *)
Definition Gateway_Stop (g : Gateway)
  : list lifecycle_event * exec (option error) :=
  match connector g with
  | None => ([LifecycleLog (LogStopped (Name g))], Panics (PanicError NilDereference))
  | Some c =>
      match MqttConnector_Stop c with
      | Panics p => ([LifecycleLog (LogStopped (Name g))], Panics p)
      | Normal (evs, err) =>
          (LifecycleLog (LogStopped (Name g)) :: evs, Normal err)
      end
  end.

Definition is_spawn (e : lifecycle_event) : bool :=
  match e with SpawnRegistrationLoop => true | _ => false end.

(** A client of the MQTT library that is connected and whose publishes
    succeed. *)
Definition online_client : Client :=
  {| IsConnected := true; publishError := fun _ _ => None |}.

(** * Properties *)

(** ** Type coercion *)

Section ConvertFacts.
Context `{Platform}.

Lemma convert_body_param (p1 p2 : Z) target v :
  convert_body p1 target v = convert_body p2 target v.
Proof. reflexivity. Qed.

Lemma convert_never_panics param target v :
  exists r, convert param target v = Normal r /\ well_formed_return r.
Proof.
  destruct target as [k s e].
  destruct k, v; cbn; eexists; (split; [reflexivity|]);
    unfold well_formed_return; cbn; eauto.
Qed.

Lemma convert_unsupported param target v :
  supported (Reflect.Kind_of target) = false ->
  convert param target v = Normal (VNil, Some (ExpectedType target (TypeOf v))).
Proof.
  destruct target as [k s e]. destruct k; cbn; try discriminate; reflexivity.
Qed.

Lemma convert_mismatch param target v :
  numeric (Reflect.Kind_of target) = true ->
  is_float64 v = false ->
  convert param target v
  = Normal (VNil, Some (TypeAssertionError (TypeOf v) Reflect.float64_t)).
Proof.
  destruct target as [k s e].
  destruct k; cbn; try discriminate; destruct v; cbn; try discriminate; reflexivity.
Qed.

Lemma convert_numeric_float param target f :
  numeric (Reflect.Kind_of target) = true ->
  exists r, convert param target (VFloat64 f) = Normal (r, None).
Proof.
  destruct target as [k s e]. destruct k; cbn; try discriminate; eauto.
Qed.

Lemma convert_string param target v :
  Reflect.Kind_of target = Reflect.String ->
  convert param target v = Normal (VString (Sprint v), None).
Proof.
  destruct target as [k s e]. cbn. intros ->. reflexivity.
Qed.

Lemma convert_seven_int32 param :
  convert param (ikind_type I32) (VFloat64 seven) = Normal (VInt I32 7, None).
Proof. reflexivity. Qed.

Lemma convert_seven_string param :
  convert param Reflect.string_t (VFloat64 seven) = Normal (VString "7", None).
Proof. reflexivity. Qed.

End ConvertFacts.

(** ** The binding loop *)

Section BindFacts.
Context `{Platform}.

Lemma initial_args_length (w : wrapper) (m : Method) :
  length (<[0%nat := OfInstance (instance w)]> (replicate (NumIn m) Zero))
  = S (length (Method_In m)).
Proof. rewrite length_insert, length_replicate. reflexivity. Qed.

(** A declared parameter that is present in the envelope and that [convert]
    rejects stops the loop with an error, whatever comes after it. *)
Lemma bind_loop_conversion_error data a m j param target v r e :
  Parameters a !! j = Some param ->
  Method_In m !! j = Some target ->
  data !! Property_Name param = Some v ->
  convert (Property_Type param) target v = Normal (r, Some e) ->
  forall todo i args,
    (1 <= i)%nat -> (i - 1 <= j)%nat -> (j < i - 1 + todo)%nat ->
    exists e', bind_loop data a m i todo args = Abort e'.
Proof.
  intros Hp Ht Hv Hc. induction todo as [|todo IH]; intros i args Hi Hle Hlt.
  - lia.
  - cbn [bind_loop].
    destruct (decide (j = i - 1)%nat) as [->|Hne].
    + rewrite Hp, Hv. unfold In_. rewrite Ht, Hc. eauto.
    + assert (Hlen : (i - 1 < length (Parameters a))%nat).
      { apply lookup_lt_Some in Hp. lia. }
      assert (Hlen' : (i - 1 < length (Method_In m))%nat).
      { apply lookup_lt_Some in Ht. lia. }
      destruct (lookup_lt_is_Some_2 _ _ Hlen) as [p0 Hp0].
      destruct (lookup_lt_is_Some_2 _ _ Hlen') as [t0 Ht0].
      rewrite Hp0. unfold In_. rewrite Ht0.
      destruct (data !! Property_Name p0) as [v0|].
      * destruct (convert_never_panics (Property_Type p0) t0 v0)
          as [[r0 [e0|]] [-> _]]; [eauto|].
        apply IH; lia.
      * apply IH; lia.
Qed.

(** With one more slot than there are declared parameters, the loop reads
    [Parameters[n]] in its last iteration: it never ends with the slots
    bound. *)
Lemma bind_loop_extra_slot data a m :
  length (Method_In m) = S (length (Parameters a)) ->
  forall todo i args,
    (1 <= i)%nat -> (1 <= todo)%nat ->
    (i - 1 + todo = S (length (Parameters a)))%nat ->
    (exists e, bind_loop data a m i todo args = Abort e) \/
    bind_loop data a m i todo args
    = Crashed (PanicError (BoundsError (length (Parameters a))
                                        (length (Parameters a)))).
Proof.
  intros Hlen. induction todo as [|todo IH]; intros i args Hi Htodo Hsum.
  - lia.
  - cbn [bind_loop].
    destruct (Parameters a !! (i - 1)%nat) as [p0|] eqn:Hp0.
    + apply lookup_lt_Some in Hp0 as Hlt.
      assert (Hlt' : (i - 1 < length (Method_In m))%nat) by lia.
      destruct (lookup_lt_is_Some_2 _ _ Hlt') as [t0 Ht0].
      unfold In_. rewrite Ht0.
      destruct (data !! Property_Name p0) as [v0|].
      * destruct (convert_never_panics (Property_Type p0) t0 v0)
          as [[r0 [e0|]] [-> _]]; [eauto|].
        apply IH; lia.
      * apply IH; lia.
    + apply lookup_ge_None in Hp0.
      replace (i - 1)%nat with (length (Parameters a)) by lia. auto.
Qed.

(** The declared type of a parameter does not reach the outcome of the
    loop. *)
Lemma bind_loop_retype f data a m todo :
  forall i args,
    bind_loop data (retype_action f a) m i todo args
    = bind_loop data a m i todo args.
Proof.
  induction todo as [|todo IH]; intros i args; [reflexivity|].
  cbn [bind_loop retype_action Parameters].
  rewrite list_lookup_fmap, length_fmap.
  destruct (Parameters a !! (i - 1)%nat) as [p0|]; cbn; [|reflexivity].
  destruct (data !! Property_Name p0) as [v0|]; [|apply IH].
  destruct (In_ m i) as [t0|]; [|reflexivity].
  change (convert (f (Property_Type p0)) t0 v0)
    with (convert (Property_Type p0) t0 v0).
  destruct (convert (Property_Type p0) t0 v0) as [[r0 [e0|]]|]; auto.
Qed.

End BindFacts.

(** ** Resolution of an envelope *)

Section DispatchFacts.
Context `{Platform}.

Lemma dispatch_resolved g data w a m :
  resolves g data w a m -> arity_ok a m ->
  dispatch g data = bind_and_call w data a m.
Proof.
  intros (ids & name & Hid & Hw & Hact & Ha & Hm) Har.
  unfold dispatch. unfold resolved_id in Hid.
  assert (Hfound :
    match data !! "id" with
    | Some id => (id, true)
    | None => match data !! "name" with
              | Some id => (id, true)
              | None => (VNil, false)
              end
    end = (VString ids, true)).
  { destruct (data !! "id"); [congruence|]. rewrite Hid. reflexivity. }
  rewrite Hfound. cbn [negb assert_string]. rewrite Hw, Hact.
  cbn [assert_string]. rewrite Ha, Hm.
  unfold arity_ok in Har.
  destruct (Nat.eqb_spec (NumIn m) (length (Parameters a) + 1));
    [reflexivity|].
  destruct (Nat.eqb_spec (NumIn m) (length (Parameters a) + 2));
    [reflexivity|tauto].
Qed.

(** Every way the dispatcher gives a message up before binding leaves one
    log line and returns, as long as the keys it asserts are strings. *)
Lemma dispatch_unresolved_only_logs g data :
  string_keys data ->
  (forall w a m, resolves g data w a m -> ~ arity_ok a m) ->
  exists l, dispatch g data = ([Log l], Returned).
Proof.
  intros [Hids Hacts] Hno. unfold dispatch.
  pose proof (Hids) as Hids'. unfold resolved_id in Hids'.
  destruct (data !! "id") as [id|] eqn:Eid.
  2: destruct (data !! "name") as [id|] eqn:Ename.
  3: { cbn. eauto. }
  all: destruct (Hids' id eq_refl) as [ids ->]; cbn [negb assert_string].
  all: destruct (Things g !! ids) as [w|] eqn:Ew; [|eauto].
  all: destruct (data !! "action") as [action|] eqn:Eact; [|eauto].
  all: destruct (Hacts action eq_refl) as [name ->]; cbn [assert_string].
  all: destruct (FindAction (thing w) name) as [a|] eqn:Ea; [|eauto].
  all: destruct (MethodByName (instance w) name) as [m|] eqn:Em; [|eauto].
  all: assert (Hres : resolves g data w a m)
         by (exists ids, name; unfold resolved_id; rewrite ?Eid, ?Ename; auto).
  all: specialize (Hno w a m Hres); unfold arity_ok in Hno.
  all: destruct (Nat.eqb_spec (NumIn m) (length (Parameters a) + 1));
         [tauto|].
  all: destruct (Nat.eqb_spec (NumIn m) (length (Parameters a) + 2));
         [tauto|].
  all: cbn; eauto.
Qed.

(** A value under ["id"] that is not a string makes the dispatcher panic
    on its unchecked type assertion, whatever the registry holds. *)
Lemma dispatch_id_not_string g data v :
  data !! "id" = Some v ->
  (forall s, v <> VString s) ->
  dispatch g data
  = ([], Panicked (PanicError (TypeAssertionError (TypeOf v) Reflect.string_t))).
Proof.
  intros Hv Hns. unfold dispatch. rewrite Hv. cbn.
  destruct v; cbn; try reflexivity. destruct (Hns s eq_refl).
Qed.

Lemma bind_and_call_conversion_error w data a m j param target v r e :
  Parameters a !! j = Some param ->
  Method_In m !! j = Some target ->
  data !! Property_Name param = Some v ->
  convert (Property_Type param) target v = Normal (r, Some e) ->
  exists e', bind_and_call w data a m = ([Log (LogError e')], Returned).
Proof.
  intros Hp Ht Hv Hc. unfold bind_and_call.
  rewrite initial_args_length. cbn [Nat.sub].
  apply lookup_lt_Some in Ht as Hlt.
  destruct (bind_loop_conversion_error data a m j param target v r e
              Hp Ht Hv Hc (length (Method_In m) - 0) 1
              (<[0%nat := OfInstance (instance w)]> (replicate (NumIn m) Zero)))
    as [e' ->]; [lia..|].
  eauto.
Qed.

Lemma bind_and_call_extra_slot w data a m :
  NumIn m = (length (Parameters a) + 2)%nat ->
  (exists e, bind_and_call w data a m = ([Log (LogError e)], Returned)) \/
  bind_and_call w data a m
  = ([], Panicked (PanicError (BoundsError (length (Parameters a))
                                            (length (Parameters a))))).
Proof.
  intros Hn. unfold bind_and_call.
  rewrite initial_args_length. cbn [Nat.sub].
  unfold NumIn in Hn.
  destruct (bind_loop_extra_slot data a m ltac:(lia)
              (length (Method_In m) - 0) 1
              (<[0%nat := OfInstance (instance w)]> (replicate (NumIn m) Zero)))
    as [[e ->] | ->]; [lia..| |]; eauto.
Qed.

End DispatchFacts.

(** ** The registration loop *)

Section StartFacts.
Context `{Platform}.

Lemma registration_url_setRegistered g b :
  registration_url (setRegistered g b) = registration_url g.
Proof. destruct b; reflexivity. Qed.

Lemma IsRegistered_setRegistered g b : IsRegistered (setRegistered g b) = b.
Proof. destruct b; reflexivity. Qed.

Lemma supervise_cons first g r rs :
  newRequestOK (registration_url g) = true ->
  supervise first g (r :: rs)
  = (gateway_after false (setRegistered g (succeeded r)) rs,
     (HttpPost (registration_url g) (model_of g (sensors_of g))
        :: heartbeat_logs first g r)
       :: iterations false (setRegistered g (succeeded r)) rs,
     (supervise false (setRegistered g (succeeded r)) rs).2).
Proof.
  intros Hok. cbn [supervise]. unfold heartbeat. rewrite Hok.
  unfold gateway_after, iterations.
  destruct (supervise false (setRegistered g (succeeded r)) rs) as [[g' l] e].
  reflexivity.
Qed.

(** An iteration logs one line when it is the first or the POST changes
    the registration state, and none otherwise. *)
Lemma heartbeat_logs_count first g r :
  count_logs (heartbeat_logs first g r)
  = if first || xorb (IsRegistered g) (succeeded r) then 1%nat else 0%nat.
Proof.
  unfold heartbeat_logs, succeeded.
  destruct r as [err|code status]; [|destruct ((200 <=? code) && (code <? 400))];
    destruct first, (IsRegistered g); reflexivity.
Qed.

Lemma supervise_never_panics rs :
  forall first g,
    newRequestOK (registration_url g) = true ->
    (supervise first g rs).2 = Returned /\
    length (iterations first g rs) = length rs.
Proof.
  induction rs as [|r rs IH]; intros first g Hok; [split; reflexivity|].
  unfold iterations. rewrite supervise_cons by assumption. cbn.
  destruct (IH false (setRegistered g (succeeded r))) as [-> ->];
    [by rewrite registration_url_setRegistered|]. done.
Qed.

Lemma supervise_logs rs :
  forall first g i r,
    newRequestOK (registration_url g) = true ->
    rs !! i = Some r ->
    exists evs,
      iterations first g rs !! i = Some evs /\
      count_logs evs =
        if (first && (i =? 0)%nat)
           || xorb (IsRegistered (gateway_after first g (take i rs)))
                   (IsRegistered (gateway_after first g (take (S i) rs)))
        then 1%nat else 0%nat.
Proof.
  induction rs as [|r0 rs IH]; intros first g i r Hok Hi; [done|].
  unfold iterations. rewrite supervise_cons by assumption. cbn [fst snd].
  destruct i as [|i].
  - eexists. split; [reflexivity|].
    unfold count_logs. cbn [List.filter is_log].
    fold (count_logs (heartbeat_logs first g r0)).
    rewrite heartbeat_logs_count. cbn [take Nat.eqb].
    unfold gateway_after at 2. rewrite supervise_cons by assumption.
    unfold gateway_after. rewrite take_0. cbn [supervise fst snd].
    rewrite IsRegistered_setRegistered, andb_true_r. reflexivity.
  - cbn in Hi. cbn [take Nat.eqb]. rewrite andb_false_r. cbn [orb].
    unfold gateway_after at 1 2. rewrite !supervise_cons by assumption.
    cbn [fst snd].
    destruct (IH false (setRegistered g (succeeded r0)) i r) as (evs & Hevs & Hc);
      [by rewrite registration_url_setRegistered|assumption|].
    exists evs. split; [exact Hevs|]. rewrite Hc. reflexivity.
Qed.

End StartFacts.

(** ** Names and topics *)

Lemma contains_app s1 s2 c :
  GoStrings.contains (s1 ++ s2) c
  = GoStrings.contains s1 c || GoStrings.contains s2 c.
Proof.
  induction s1 as [|d s1 IH]; [reflexivity|].
  change (String d s1 ++ s2) with (String d (s1 ++ s2)).
  cbn [GoStrings.contains]. rewrite IH. apply orb_assoc.
Qed.

Lemma ReplaceAll_removes s old new :
  GoStrings.contains new old = false ->
  GoStrings.contains (GoStrings.ReplaceAll s old new) old = false.
Proof.
  intros Hnew.
  induction s as [|c s IH]; cbn [GoStrings.ReplaceAll]; [reflexivity|].
  destruct (Ascii.eqb c old) eqn:E.
  - rewrite contains_app, Hnew, IH. reflexivity.
  - cbn [GoStrings.contains]. rewrite E, IH. reflexivity.
Qed.

Lemma ReplaceAll_absent s old new :
  GoStrings.contains s old = false ->
  GoStrings.ReplaceAll s old new = s.
Proof.
  induction s as [|c s IH]; cbn [GoStrings.ReplaceAll GoStrings.contains];
    [reflexivity|].
  destruct (Ascii.eqb c old); cbn [orb]; [discriminate|].
  intros Hs. rewrite IH by assumption. reflexivity.
Qed.

(** ** Deregistration *)

Lemma Deregister_absent g id :
  Things g !! id = None ->
  Deregister g id
  = {| gateway := g; trace := [Log (LogNotRegistered id)]; ending := Returned |}.
Proof. intros Hid. unfold Deregister. rewrite Hid. reflexivity. Qed.

Lemma Deregister_present g id w :
  Things g !! id = Some w ->
  Things (gateway (Deregister g id)) !! id = None /\
  forall id', id' <> id ->
    Things (gateway (Deregister g id)) !! id' = Things g !! id'.
Proof.
  intros Hid. unfold Deregister. rewrite Hid. cbn. split.
  - apply lookup_delete_eq.
  - intros id' Hne. apply lookup_delete_ne. congruence.
Qed.

(** After a deregistration a message for the id is answered as for an
    unknown thing. *)
Lemma dispatch_after_Deregister `{Platform} g id w rest :
  Things g !! id = Some w ->
  dispatch (gateway (Deregister g id)) (<["id" := VString id]> rest)
  = ([Log (LogThingNotAvailable (VString id))], Returned).
Proof.
  intros Hid. destruct (Deregister_present g id w Hid) as [Hgone _].
  unfold dispatch. rewrite lookup_insert_eq. cbn [negb assert_string].
  rewrite Hgone. reflexivity.
Qed.

Section ConstructionFacts.
Context `{Platform}.

Lemma NewMqttConnector_fields g server g' c :
  NewMqttConnector g server = inl (g', c) ->
  Name g' = Name g /\ Account g' = Account g /\ Kind g' = Kind g /\
  Things g' = Things g /\
  Data g' = topic (namespace (Account g)) (Name g) "data" /\
  Action_ g' = topic (namespace (Account g)) (Name g) "action" /\
  DataTopic c = Data g' /\ ActionTopic c = Action_ g' /\
  client c = None.
Proof.
  unfold NewMqttConnector. intros Heq.
  repeat case_match; simplify_eq; cbn; repeat split; reflexivity.
Qed.

Lemma NewGateway_fields name server connServer account opts g :
  NewGateway name server connServer account opts = Normal (inl g) ->
  Name g = GoStrings.ReplaceAll name "-" "_" /\
  Account g = account /\
  Data g = topic (namespace account) (Name g) "data" /\
  Action_ g = topic (namespace account) (Name g) "action" /\
  exists c, connector g = Some c /\
            DataTopic c = Data g /\ ActionTopic c = Action_ g.
Proof.
  unfold NewGateway. intros Heq.
  repeat case_match; simplify_eq;
    match goal with
    | Hc : NewMqttConnector _ _ = inl _ |- _ =>
        apply NewMqttConnector_fields in Hc;
        destruct Hc as (Hn & Hacc & _ & _ & Hd & Ha & Hdt & Hat & _)
    end; cbn in *; rewrite ?Hn, ?Hacc, ?Hd, ?Ha in *;
    repeat split; eauto.
Qed.

End ConstructionFacts.

(** * The specification, claim by claim *)

(** C1, as stated, fails: with the action named ["setOn"] and the method
    [SetOn], neither envelope invokes anything, the method being looked up
    under the action's own name; and with both named ["SetOn"], the envelope
    that carries [on = true] still invokes nothing, [convert] having no case
    for a bool target. *)
Lemma C1_counterexample :
  ~ invoked_once_with
      (@CallAction sample_platform (lamp_gateway "setOn" "SetOn") (envelope_on "setOn"))
      "SetOn" [VBool true]
  /\ ~ invoked_once_with
      (@CallAction sample_platform (lamp_gateway "setOn" "SetOn")
         (envelope_default "setOn"))
      "SetOn" [VBool false]
  /\ ~ invoked_once_with
      (@CallAction sample_platform (lamp_gateway "SetOn" "SetOn") (envelope_on "SetOn"))
      "SetOn" [VBool true].
Proof.
  repeat split; intros [recv Hcall]; vm_compute in Hcall; discriminate.
Qed.

(** C1 (amended). A lamp registered as ["lamp1"] whose action carries the
    very name [n] of its one-bool method, with the single parameter
    [{on, Bool, false}]: dispatching [{"id": "lamp1", "action": n}] invokes
    the method exactly once with the declared default [false], and
    dispatching [{"id": "lamp1", "action": n, "on": true}] invokes nothing:
    the conversion error for the bool target is logged and the message
    dropped. *)
Theorem C1_lamp_dispatch `{Platform} (n : string) :
  n <> "Init" ->
  CallAction (lamp_gateway n n) (envelope_default n)
  = {| gateway := lamp_gateway n n;
       trace := [MethodCall (lamp n n) n [VBool false]];
       ending := Returned |}
  /\ CallAction (lamp_gateway n n) (envelope_on n)
  = {| gateway := lamp_gateway n n;
       trace := [Log (LogError (ExpectedType Reflect.bool_t (Some Reflect.bool_t)))];
       ending := Returned |}.
Proof.
  intros Hn.
  assert (Hinit : String.eqb "Init" n = false).
  { apply String.eqb_neq. congruence. }
  set (w := {| thing := Init (lamp n n)
                 {| Id := "lamp1"; Thing_Name := "Lamp"; Thing_Kind := "lamp";
                    Actions := []; Properties := [] |};
               instance := lamp n n |}).
  set (a := {| Action_Name := n; Parameters := [on_param] |}).
  set (m := {| Method_Name := n; Method_In := [Reflect.bool_t] |}).
  assert (Hw : Things (lamp_gateway n n) !! "lamp1" = Some w) by reflexivity.
  assert (Ha : FindAction (thing w) n = Some a).
  { unfold FindAction, w.
    cbn [thing Init lamp AddAction Actions app find_action Action_Name].
    rewrite String.eqb_refl. reflexivity. }
  assert (Hm : MethodByName (instance w) n = Some m).
  { unfold MethodByName, w.
    cbn [instance methods lamp method_by_name Method_Name].
    rewrite Hinit, String.eqb_refl. reflexivity. }
  assert (Har : arity_ok a m) by (left; reflexivity).
  unfold CallAction. split.
  - rewrite (dispatch_resolved _ _ w a m); [reflexivity| |exact Har].
    exists "lamp1", n. repeat split; try assumption; reflexivity.
  - rewrite (dispatch_resolved _ _ w a m); [reflexivity| |exact Har].
    exists "lamp1", n. repeat split; try assumption; reflexivity.
Qed.

(** The lamp with the action and the method both named [SetOn]. *)
Lemma C1_lamp_dispatch_witness :
  @CallAction sample_platform (lamp_gateway "SetOn" "SetOn") (envelope_default "SetOn")
  = {| gateway := lamp_gateway "SetOn" "SetOn";
       trace := [MethodCall (lamp "SetOn" "SetOn") "SetOn" [VBool false]];
       ending := Returned |}
  /\ @CallAction sample_platform (lamp_gateway "SetOn" "SetOn") (envelope_on "SetOn")
  = {| gateway := lamp_gateway "SetOn" "SetOn";
       trace := [Log (LogError (ExpectedType Reflect.bool_t (Some Reflect.bool_t)))];
       ending := Returned |}.
Proof. apply (@C1_lamp_dispatch sample_platform "SetOn"). discriminate. Defined.

(** C2. [convert] is total and deterministic: for every declared type,
    target type and value it returns, without panicking, either a value and
    no error or nil and an error. The float 7.0 converts to 7 for an int32
    target and to "7" for a string target. A target kind without a case
    (anything but the integer kinds, float32, float64 and string) gives an
    error, and so does a value that is not a float64 for a numeric target;
    and when a declared parameter that the envelope carries is rejected by
    [convert], the dispatch logs the error and returns without invoking
    anything. *)
Theorem C2_convert_total `{Platform} :
  (forall param target v,
     exists r, convert param target v = Normal r /\ well_formed_return r)
  /\ (forall param target v r1 r2,
        convert param target v = r1 -> convert param target v = r2 -> r1 = r2)
  /\ (forall param,
        convert param (ikind_type I32) (VFloat64 seven) = Normal (VInt I32 7, None))
  /\ (forall param,
        convert param Reflect.string_t (VFloat64 seven) = Normal (VString "7", None))
  /\ (forall param target v,
        supported (Reflect.Kind_of target) = false ->
        convert param target v
        = Normal (VNil, Some (ExpectedType target (TypeOf v))))
  /\ (forall param target v,
        numeric (Reflect.Kind_of target) = true ->
        is_float64 v = false ->
        convert param target v
        = Normal (VNil, Some (TypeAssertionError (TypeOf v) Reflect.float64_t)))
  /\ (forall g data w a m j param target v r e,
        resolves g data w a m -> arity_ok a m ->
        Parameters a !! j = Some param ->
        Method_In m !! j = Some target ->
        data !! Property_Name param = Some v ->
        convert (Property_Type param) target v = Normal (r, Some e) ->
        exists e',
          CallAction g data
          = {| gateway := g; trace := [Log (LogError e')]; ending := Returned |}).
Proof.
  split; [exact convert_never_panics|].
  split; [congruence|].
  split; [exact convert_seven_int32|].
  split; [exact convert_seven_string|].
  split; [exact convert_unsupported|].
  split; [exact convert_mismatch|].
  intros g data w a m j param target v r e Hres Har Hp Ht Hv Hc.
  unfold CallAction. rewrite (dispatch_resolved g data w a m Hres Har).
  destruct (bind_and_call_conversion_error w data a m j param target v r e
              Hp Ht Hv Hc) as [e' ->].
  eauto.
Qed.

(** A bool target, a string for an int32 target, and the dimmer sent the
    string as its level. *)
Lemma C2_convert_total_witness :
  @convert sample_platform PropertyTypeInt Reflect.bool_t (VBool true)
  = Normal (VNil, Some (ExpectedType Reflect.bool_t (Some Reflect.bool_t)))
  /\ @convert sample_platform PropertyTypeInt (ikind_type I32) (VString "7")
  = Normal (VNil, Some (TypeAssertionError (Some Reflect.string_t) Reflect.float64_t))
  /\ exists e',
       @CallAction sample_platform (dimmer_gateway (ikind_type I32))
         (envelope_level (VString "7"))
       = {| gateway := dimmer_gateway (ikind_type I32);
            trace := [Log (LogError e')]; ending := Returned |}.
Proof.
  pose proof (@C2_convert_total sample_platform)
    as (_ & _ & _ & _ & Hunsupported & Hmismatch & Habort).
  split; [apply Hunsupported; reflexivity|].
  split; [apply Hmismatch; reflexivity|].
  eapply (Habort (dimmer_gateway (ikind_type I32)) (envelope_level (VString "7"))
            {| thing := Init (dimmer (ikind_type I32))
                 {| Id := "dim1"; Thing_Name := "Dimmer"; Thing_Kind := "dimmer";
                    Actions := []; Properties := [] |};
               instance := dimmer (ikind_type I32) |}
            {| Action_Name := "SetLevel"; Parameters := [level_param] |}
            {| Method_Name := "SetLevel"; Method_In := [ikind_type I32] |}
            0%nat level_param (ikind_type I32) (VString "7")).
  - exists "dim1", "SetLevel". repeat split; reflexivity.
  - left; reflexivity.
  - reflexivity.
  - reflexivity.
  - reflexivity.
  - reflexivity.
Defined.

(** C3: a message whose ["id"] is not a string (here a number, as
    [{"id": 7}] decodes) is not logged and dropped: the unchecked assertion
    [id.(string)] panics, whatever the registry holds and whatever else the
    envelope carries. *)
Theorem C3_non_string_id_panics `{Platform} (g : Gateway) (f : spec_float)
    (rest : gmap string value) :
  CallAction g (<["id" := VFloat64 f]> rest)
  = {| gateway := g; trace := [];
       ending := Panicked (PanicError
                   (TypeAssertionError (Some Reflect.float64_t) Reflect.string_t)) |}.
Proof.
  unfold CallAction.
  rewrite (dispatch_id_not_string g _ (VFloat64 f));
    [reflexivity|apply lookup_insert_eq|discriminate].
Qed.

(** C7. The declared Property type never reaches the result of [convert]:
    for every target type and value the result is the same under any two
    declared types. Hence the binding loop of the dispatcher, the one caller
    of [convert], ends the same way when the declared types of the action's
    parameters are replaced by any others. *)
Theorem C7_convert_ignores_declared_type `{Platform} :
  (forall (p1 p2 : Z) (target : Reflect.Type_) (v : value),
     convert p1 target v = convert p2 target v)
  /\ (forall (f : Z -> Z) data a m i todo args,
        bind_loop data (retype_action f a) m i todo args
        = bind_loop data a m i todo args).
Proof.
  split.
  - intros p1 p2 target v. unfold convert.
    rewrite (convert_body_param p1 p2). reflexivity.
  - intros f data a m i todo args. apply bind_loop_retype.
Qed.

(** C4. Registering under an id that is already a key changes nothing:
    the gateway is returned as it was, the entry under the id is the
    original pair, the registry has the size it had, [Init] of the new
    instance is not called, and the one thing that happens is the notice in
    the log; [Register] returns normally. *)
Theorem C4_register_duplicate_noop (g : Gateway) (id name : string)
    (inst : option Instance) (w : wrapper) :
  Things g !! id = Some w ->
  Register g id name inst
  = {| gateway := g; trace := [Log (LogAlreadyRegistered id)]; ending := Returned |}
  /\ Things (gateway (Register g id name inst)) !! id = Some w
  /\ size (Things (gateway (Register g id name inst))) = size (Things g)
  /\ List.filter is_init_call (trace (Register g id name inst)) = [].
Proof.
  intros Hw. unfold Register. rewrite Hw. cbn. auto.
Qed.

(** A dimmer registered under the id the lamp holds. *)
Lemma C4_register_duplicate_noop_witness :
  Register (lamp_gateway "SetOn" "SetOn") "lamp1" "Other"
    (Some (dimmer (ikind_type I32)))
  = {| gateway := lamp_gateway "SetOn" "SetOn";
       trace := [Log (LogAlreadyRegistered "lamp1")]; ending := Returned |}
  /\ Things (gateway (Register (lamp_gateway "SetOn" "SetOn") "lamp1" "Other"
                        (Some (dimmer (ikind_type I32))))) !! "lamp1"
     = Some {| thing := Init (lamp "SetOn" "SetOn")
                 {| Id := "lamp1"; Thing_Name := "Lamp"; Thing_Kind := "lamp";
                    Actions := []; Properties := [] |};
               instance := lamp "SetOn" "SetOn" |}
  /\ size (Things (gateway (Register (lamp_gateway "SetOn" "SetOn") "lamp1" "Other"
                              (Some (dimmer (ikind_type I32))))))
     = size (Things (lamp_gateway "SetOn" "SetOn"))
  /\ List.filter is_init_call
       (trace (Register (lamp_gateway "SetOn" "SetOn") "lamp1" "Other"
                 (Some (dimmer (ikind_type I32))))) = [].
Proof. apply C4_register_duplicate_noop. reflexivity. Defined.

(** C5: a dispatch to a method with one slot more than the action declares
    never reaches the payload or the invocation. The binding loop runs over
    the extra slot too and there reads [Parameters[n]] out of range: the
    dispatch panics, unless a conversion error has ended it before. *)
Theorem C5_extra_slot_never_invoked `{Platform} (g : Gateway)
    (data : gmap string value) (w : wrapper) (a : Action) (m : Method) :
  resolves g data w a m ->
  NumIn m = (length (Parameters a) + 2)%nat ->
  invoked_nothing (CallAction g data) /\
  ((exists e,
      CallAction g data
      = {| gateway := g; trace := [Log (LogError e)]; ending := Returned |})
   \/ CallAction g data
      = {| gateway := g; trace := [];
           ending := Panicked (PanicError
                       (BoundsError (length (Parameters a))
                                    (length (Parameters a)))) |}).
Proof.
  intros Hres Hn. unfold CallAction, invoked_nothing.
  rewrite (dispatch_resolved g data w a m Hres); [|right; exact Hn].
  destruct (bind_and_call_extra_slot w data a m Hn) as [[e ->] | ->].
  - split; [reflexivity|]. left. eauto.
  - split; [reflexivity|]. right. reflexivity.
Qed.

(** The camera, whose [Snap] takes the payload only. *)
Lemma C5_extra_slot_never_invoked_witness :
  invoked_nothing (@CallAction sample_platform camera_gateway envelope_snap) /\
  ((exists e,
      @CallAction sample_platform camera_gateway envelope_snap
      = {| gateway := camera_gateway; trace := [Log (LogError e)];
           ending := Returned |})
   \/ @CallAction sample_platform camera_gateway envelope_snap
      = {| gateway := camera_gateway; trace := [];
           ending := Panicked (PanicError (BoundsError 0 0)) |}).
Proof.
  apply (@C5_extra_slot_never_invoked sample_platform camera_gateway envelope_snap
           {| thing := Init camera
                {| Id := "cam1"; Thing_Name := "Camera"; Thing_Kind := "camera";
                   Actions := []; Properties := [] |};
              instance := camera |}
           {| Action_Name := "Snap"; Parameters := [] |}
           {| Method_Name := "Snap"; Method_In := [Reflect.empty_interface] |}).
  - exists "cam1", "Snap". repeat split; reflexivity.
  - reflexivity.
Defined.

(** The dispatch of [{"id": "cam1", "action": "Snap", "payload": "x"}] to
    the camera panics with an index out of range. *)
Example camera_dispatch_panics :
  @CallAction sample_platform camera_gateway envelope_snap
  = {| gateway := camera_gateway; trace := [];
       ending := Panicked (PanicError (BoundsError 0 0)) |}.
Proof. reflexivity. Qed.

Lemma count_logs_post url body evs :
  count_logs (HttpPost url body :: evs) = count_logs evs.
Proof. reflexivity. Qed.

(** C6. As long as the request can be built, the loop goes through every
    heartbeat, and the iteration of index [i] logs one line when it is the
    first or the registration state differs before and after it, and no
    line otherwise. Three failed heartbeats from the unregistered state log
    once (the first), and a successful one after them logs once more. *)
Theorem C6_edge_triggered_logging `{Platform} (g : Gateway)
    (rs : list post_result) :
  newRequestOK (registration_url g) = true ->
  (registration_loop g rs).2 = Returned
  /\ length (iterations true g rs) = length rs
  /\ (forall i r,
        rs !! i = Some r ->
        exists evs,
          iterations true g rs !! i = Some evs /\
          count_logs evs =
            if (i =? 0)%nat
               || xorb (IsRegistered (gateway_after true g (take i rs)))
                       (IsRegistered (gateway_after true g (take (S i) rs)))
            then 1%nat else 0%nat)
  /\ (forall f1 f2 f3 s,
        registered g = 0 ->
        succeeded f1 = false -> succeeded f2 = false -> succeeded f3 = false ->
        succeeded s = true ->
        count_logs <$> iterations true g [f1; f2; f3; s]
        = [1%nat; 0%nat; 0%nat; 1%nat]).
Proof.
  intros Hok.
  destruct (supervise_never_panics rs true g Hok) as [Hret Hlen].
  split; [exact Hret|]. split; [exact Hlen|]. split.
  - intros i r Hi.
    destruct (supervise_logs rs true g i r Hok Hi) as (evs & Hevs & Hc).
    exists evs. split; [exact Hevs|]. rewrite Hc. reflexivity.
  - intros f1 f2 f3 s Hreg Hf1 Hf2 Hf3 Hs.
    assert (Hg : IsRegistered g = false) by (unfold IsRegistered; rewrite Hreg; reflexivity).
    unfold iterations.
    rewrite supervise_cons by assumption. cbn [fst snd].
    unfold iterations.
    rewrite supervise_cons by (by rewrite registration_url_setRegistered).
    cbn [fst snd]. unfold iterations.
    rewrite supervise_cons by (by rewrite !registration_url_setRegistered).
    cbn [fst snd]. unfold iterations.
    rewrite supervise_cons by (by rewrite !registration_url_setRegistered).
    cbn [fst snd fmap list_fmap].
    rewrite !count_logs_post, !heartbeat_logs_count.
    rewrite !IsRegistered_setRegistered, Hg, Hf1, Hf2, Hf3, Hs.
    reflexivity.
Qed.

(** Two refused connections around a 503, then a 200. *)
Lemma C6_edge_triggered_logging_witness :
  count_logs <$>
    @iterations sample_platform true empty_gateway
      [DoError (LibraryError "connection refused");
       Response 503 "503 Service Unavailable";
       DoError (LibraryError "connection refused");
       Response 200 "200 OK"]
  = [1%nat; 0%nat; 0%nat; 1%nat].
Proof.
  apply (@C6_edge_triggered_logging sample_platform empty_gateway
           [DoError (LibraryError "connection refused");
            Response 503 "503 Service Unavailable";
            DoError (LibraryError "connection refused");
            Response 200 "200 OK"]);
    reflexivity.
Defined.

(** C8. Without a client, or with a client that is not connected,
    [Publish] sends nothing and returns no error, for every data mapping;
    the connector, which has no queue, is not touched. *)
Theorem C8_publish_disconnected_noop `{Platform} (c : MqttConnector)
    (data : gmap string value) :
  client c = None \/ (exists cl, client c = Some cl /\ IsConnected cl = false) ->
  Publish c data = ([], None).
Proof.
  intros [Hc | (cl & Hc & Hcon)]; unfold Publish; rewrite Hc;
    [|rewrite Hcon]; reflexivity.
Qed.

(** A temperature reading sent while the client is offline. *)
Lemma C8_publish_disconnected_noop_witness :
  @Publish sample_platform offline_connector (<["temperature" := VFloat64 seven]> ∅)
  = ([], None).
Proof.
  apply (@C8_publish_disconnected_noop sample_platform).
  right. exists offline_client. split; reflexivity.
Defined.

(** C9. A gateway that [NewGateway] returns has the name it was given with
    every ["-"] replaced by ["_"]: the stored name holds no ["-"], the data
    and action topics of the gateway and of its connector are built from
    the stored name, and so is the registration document; a name without
    ["-"] is stored as it is. *)
Theorem C9_gateway_name_sanitized `{Platform}
    (name server connServer account : string)
    (opts : option (gmap string value)) (g : Gateway) :
  NewGateway name server connServer account opts = Normal (inl g) ->
  Name g = GoStrings.ReplaceAll name "-" "_"
  /\ GoStrings.contains (Name g) "-" = false
  /\ Data g = topic (namespace account) (Name g) "data"
  /\ Action_ g = topic (namespace account) (Name g) "action"
  /\ (exists c, connector g = Some c /\
                DataTopic c = topic (namespace account) (Name g) "data" /\
                ActionTopic c = topic (namespace account) (Name g) "action")
  /\ (forall sensors,
        model_name (model_of g sensors) = GoStrings.ReplaceAll name "-" "_" /\
        model_data (model_of g sensors) = topic (namespace account) (Name g) "data" /\
        model_action (model_of g sensors)
        = topic (namespace account) (Name g) "action")
  /\ (GoStrings.contains name "-" = false -> Name g = name).
Proof.
  intros Hnew.
  destruct (NewGateway_fields _ _ _ _ _ _ Hnew)
    as (Hn & Hacc & Hd & Ha & c & Hc & Hdt & Hat).
  split; [exact Hn|].
  split; [rewrite Hn; apply ReplaceAll_removes; reflexivity|].
  split; [exact Hd|]. split; [exact Ha|].
  split; [exists c; rewrite Hdt, Hat; auto|].
  split; [intros sensors; cbn; auto|].
  intros Hno. rewrite Hn. apply ReplaceAll_absent. exact Hno.
Qed.

(** The gateway built for the name [my-gw-1] and the account
    [me@example.org]. *)
Lemma C9_gateway_name_sanitized_witness :
  exists g,
    @NewGateway sample_platform "my-gw-1" "http://deviot" "broker" "me@example.org" None
    = Normal (inl g)
    /\ Name g = "my_gw_1"
    /\ Data g = "/deviot/meexample.org/my_gw_1/data"
    /\ Action_ g = "/deviot/meexample.org/my_gw_1/action".
Proof.
  destruct (@NewGateway sample_platform "my-gw-1" "http://deviot" "broker"
              "me@example.org" None) as [[g|e]|p] eqn:E;
    [|vm_compute in E; discriminate..].
  exists g. split; [reflexivity|].
  destruct (@C9_gateway_name_sanitized sample_platform _ _ _ _ _ _ E)
    as (Hn & _ & Hd & Ha & _).
  rewrite Hd, Ha, Hn. repeat split; reflexivity.
Defined.

(** C10, as stated, fails: an instance whose dynamic type is a slice type,
    not a pointer, is registered without a panic, with the kind of its
    element type; and an instance passed by value under an id that is
    already registered meets no panic either, the type being looked at only
    for a new id. *)
Lemma C10_counterexample :
  Reflect.Kind_of (dynType strip) <> Reflect.Pointer
  /\ ending (Register empty_gateway "strip1" "Strip" (Some strip)) = Returned
  /\ Things (gateway (Register empty_gateway "strip1" "Strip" (Some strip))) !! "strip1"
     = Some {| thing := {| Id := "strip1"; Thing_Name := "Strip"; Thing_Kind := "int";
                           Actions := []; Properties := [] |};
               instance := strip |}
  /\ Reflect.Kind_of (dynType lamp_value) <> Reflect.Pointer
  /\ ending (Register (lamp_gateway "SetOn" "SetOn") "lamp1" "Lamp" (Some lamp_value))
     = Returned.
Proof. repeat split; (discriminate || reflexivity). Qed.

(** C10 (amended). For an id that is not registered yet, [Register] looks
    at the element type of the instance's dynamic type: it panics, with the
    gateway as it was and before [Init] is called, when the instance is nil
    or the kind of its type is none of Pointer, Array, Chan, Map and Slice
    (a struct passed by value, say); for a pointer, and for the other four
    kinds alike, it returns and the pair is stored under the id. *)
Theorem C10_register_elem_kinds (g : Gateway) (id name : string) (i : Instance) :
  Things g !! id = None ->
  Reflect.wf (dynType i) = true ->
  Register g id name None
  = {| gateway := g; trace := []; ending := Panicked (PanicError NilDereference) |}
  /\ (Reflect.has_elem (Reflect.Kind_of (dynType i)) = false ->
      Register g id name (Some i)
      = {| gateway := g; trace := [];
           ending := Panicked (PanicString
                       ("reflect: Elem of invalid type " ++
                        Reflect.String_of (dynType i))) |})
  /\ (Reflect.has_elem (Reflect.Kind_of (dynType i)) = true ->
      ending (Register g id name (Some i)) = Returned /\
      exists t,
        Things (gateway (Register g id name (Some i))) !! id
        = Some {| thing := t; instance := i |})
  /\ (Reflect.Kind_of (dynType i) = Reflect.Pointer ->
      ending (Register g id name (Some i)) = Returned).
Proof.
  intros Hfree Hwf. unfold Register. rewrite Hfree.
  destruct (dynType i) as [k s e] eqn:Ht. cbn [Reflect.Kind_of Reflect.Elem].
  cbn [Reflect.wf] in Hwf.
  split; [reflexivity|]. split; [|split].
  - intros Hk. rewrite Hk. reflexivity.
  - intros Hk. rewrite Hk in *. destruct e as [t'|]; [|discriminate].
    cbn. split; [reflexivity|]. eexists. apply lookup_insert_eq.
  - intros ->. cbn in *. destruct e as [t'|]; [reflexivity|discriminate].
Qed.

(** The lamp passed by value and the lamp passed by pointer. *)
Lemma C10_register_elem_kinds_witness :
  Register empty_gateway "lamp1" "Lamp" (Some lamp_value)
  = {| gateway := empty_gateway; trace := [];
       ending := Panicked (PanicString "reflect: Elem of invalid type main.Lamp") |}
  /\ ending (Register empty_gateway "lamp1" "Lamp" (Some (lamp "SetOn" "SetOn")))
     = Returned.
Proof.
  split.
  - apply (C10_register_elem_kinds empty_gateway "lamp1" "Lamp" lamp_value);
      reflexivity.
  - apply (C10_register_elem_kinds empty_gateway "lamp1" "Lamp"
             (lamp "SetOn" "SetOn")); reflexivity.
Defined.

(** * Further properties of the code *)

(** ** thing.go *)

Lemma find_action_first l name a :
  find_action l name = Some a <->
  exists pre post, l = (pre ++ a :: post)%list /\ Action_Name a = name /\
                   Forall (fun b => Action_Name b <> name) pre.
Proof.
  split.
  - induction l as [|b l IH]; cbn [find_action]; [discriminate|].
    destruct (String.eqb_spec (Action_Name b) name) as [Heq|Hne].
    + intros [= ->]. exists [], l. repeat split; [exact Heq|constructor].
    + intros Hf. destruct (IH Hf) as (pre & post & -> & Hn & Hpre).
      exists (b :: pre), post. repeat split; [exact Hn|].
      constructor; assumption.
  - intros (pre & post & -> & Hn & Hpre).
    induction Hpre as [|b pre Hb Hpre IH]; cbn [find_action app].
    + rewrite <- Hn, String.eqb_refl. reflexivity.
    + apply String.eqb_neq in Hb. rewrite Hb. exact IH.
Qed.

Lemma find_action_none l name :
  find_action l name = None <-> Forall (fun b => Action_Name b <> name) l.
Proof.
  induction l as [|b l IH]; cbn [find_action].
  - split; [constructor|reflexivity].
  - destruct (String.eqb_spec (Action_Name b) name) as [Heq|Hne].
    + split; [discriminate|]. intros Hall. inversion Hall; contradiction.
    + rewrite IH. split.
      * intros Hall. constructor; assumption.
      * intros Hall. inversion Hall; assumption.
Qed.

Lemma find_action_app l1 l2 name :
  find_action (l1 ++ l2) name
  = match find_action l1 name with
    | Some b => Some b
    | None => find_action l2 name
    end.
Proof.
  induction l1 as [|b l1 IH]; cbn [find_action app]; [reflexivity|].
  destruct (String.eqb (Action_Name b) name); [reflexivity|exact IH].
Qed.

(** X1. [FindAction] returns the first action of the list that bears the
    name, in insertion order, and finds nothing exactly when no action
    bears it. *)
Theorem X1_FindAction_first_match (t : Thing) (name : string) :
  (forall a,
     FindAction t name = Some a <->
     exists pre post,
       Actions t = (pre ++ a :: post)%list /\ Action_Name a = name /\
       Forall (fun b => Action_Name b <> name) pre)
  /\ (FindAction t name = None <->
      Forall (fun b => Action_Name b <> name) (Actions t)).
Proof.
  split; [intros a; apply find_action_first|apply find_action_none].
Qed.

(** Of two actions named [On] and [Off], [Off] is found behind [On]. *)
Lemma X1_FindAction_first_match_witness :
  FindAction
    (AddAction (AddAction (blank_thing "lamp1" "Lamp" "lamp")
                  {| Action_Name := "On"; Parameters := [] |})
       {| Action_Name := "Off"; Parameters := [] |})
    "Off"
  = Some {| Action_Name := "Off"; Parameters := [] |}.
Proof.
  apply (X1_FindAction_first_match
           (AddAction (AddAction (blank_thing "lamp1" "Lamp" "lamp")
                         {| Action_Name := "On"; Parameters := [] |})
              {| Action_Name := "Off"; Parameters := [] |}) "Off").
  exists [{| Action_Name := "On"; Parameters := [] |}], [].
  split; [reflexivity|]. split; [reflexivity|].
  constructor; [discriminate|constructor].
Defined.

(** X2. An action added by [AddAction] is found under its name only when
    no earlier action bears that name: lookups that succeeded before give
    the same action after, so a second action of a name already declared is
    never found. *)
Theorem X2_AddAction_shadowed (t : Thing) (a : Action) :
  (forall name,
     FindAction (AddAction t a) name
     = match FindAction t name with
       | Some b => Some b
       | None => if String.eqb (Action_Name a) name then Some a else None
       end)
  /\ (forall b,
        FindAction t (Action_Name a) = Some b ->
        forall name, FindAction (AddAction t a) name = FindAction t name).
Proof.
  assert (Hadd : forall name,
     FindAction (AddAction t a) name
     = match FindAction t name with
       | Some b => Some b
       | None => if String.eqb (Action_Name a) name then Some a else None
       end).
  { intros name. unfold FindAction, AddAction. cbn [Actions].
    rewrite find_action_app. reflexivity. }
  split; [exact Hadd|].
  intros b Hb name. rewrite Hadd.
  destruct (FindAction t name) as [c|] eqn:Hc; [reflexivity|].
  destruct (String.eqb_spec (Action_Name a) name) as [<-|]; [congruence|reflexivity].
Qed.

(** Two actions named [SetOn], the second with a parameter. *)
Lemma X2_AddAction_shadowed_witness :
  FindAction
    (AddAction (AddAction (blank_thing "lamp1" "Lamp" "lamp")
                  {| Action_Name := "SetOn"; Parameters := [] |})
       {| Action_Name := "SetOn"; Parameters := [on_param] |})
    "SetOn"
  = Some {| Action_Name := "SetOn"; Parameters := [] |}.
Proof.
  pose proof (X2_AddAction_shadowed
    (AddAction (blank_thing "lamp1" "Lamp" "lamp")
       {| Action_Name := "SetOn"; Parameters := [] |})
    {| Action_Name := "SetOn"; Parameters := [on_param] |}) as [_ Hsame].
  rewrite (Hsame {| Action_Name := "SetOn"; Parameters := [] |});
    reflexivity.
Defined.

(** ** The registry *)

Lemma with_Things_same g : with_Things g (Things g) = g.
Proof. destruct g; reflexivity. Qed.

Lemma Register_fresh g id name i elem :
  Things g !! id = None ->
  Reflect.Elem (dynType i) = Some elem ->
  Register g id name (Some i)
  = {| gateway :=
         with_Things g
           (<[id := {| thing := Init i (blank_thing id name (derive_kind elem));
                       instance := i |}]> (Things g));
       trace :=
         [InitCall i (blank_thing id name (derive_kind elem));
          Log (LogRegistered
                 (Id (Init i (blank_thing id name (derive_kind elem))))
                 (Thing_Name (Init i (blank_thing id name (derive_kind elem))))
                 (Thing_Kind (Init i (blank_thing id name (derive_kind elem)))))];
       ending := Returned |}.
Proof. intros Hid He. unfold Register. rewrite Hid, He. reflexivity. Qed.

(** X3. Registering an instance of a pointer (or other element-bearing)
    type under a new id returns normally, calls [Init] exactly once, on a
    thing that carries the id, the name and the derived kind and declares
    nothing yet, and stores what [Init] made of it under the id; every
    other entry is as before and the registry has grown by one. *)
Theorem X3_Register_fresh (g : Gateway) (id name : string) (i : Instance)
    (elem : Reflect.Type_) :
  Things g !! id = None ->
  Reflect.Elem (dynType i) = Some elem ->
  ending (Register g id name (Some i)) = Returned
  /\ Things (gateway (Register g id name (Some i))) !! id
     = Some {| thing := Init i (blank_thing id name (derive_kind elem));
               instance := i |}
  /\ (forall id', id' <> id ->
        Things (gateway (Register g id name (Some i))) !! id' = Things g !! id')
  /\ size (Things (gateway (Register g id name (Some i)))) = S (size (Things g))
  /\ List.filter is_init_call (trace (Register g id name (Some i)))
     = [InitCall i (blank_thing id name (derive_kind elem))]
  /\ registered (gateway (Register g id name (Some i))) = registered g.
Proof.
  intros Hid He. rewrite (Register_fresh g id name i elem Hid He). cbn.
  split; [reflexivity|]. split; [apply lookup_insert_eq|].
  split; [intros id' Hne; apply lookup_insert_ne; congruence|].
  split; [apply map_size_insert_None; exact Hid|]. split; reflexivity.
Qed.

(** The lamp, registered into the empty gateway. *)
Lemma X3_Register_fresh_witness :
  Things (gateway (Register empty_gateway "lamp1" "Lamp" (Some (lamp "SetOn" "SetOn"))))
    !! "lamp1"
  = Some {| thing := Init (lamp "SetOn" "SetOn") (blank_thing "lamp1" "Lamp" "lamp");
            instance := lamp "SetOn" "SetOn" |}.
Proof.
  apply (X3_Register_fresh empty_gateway "lamp1" "Lamp" (lamp "SetOn" "SetOn")
           (Reflect.basic Reflect.Struct "main.Lamp")); reflexivity.
Defined.

(** X4. Registering under a new id and deregistering that id gives back
    the gateway as it was. *)
Theorem X4_Register_Deregister (g : Gateway) (id name : string) (i : Instance)
    (elem : Reflect.Type_) :
  Things g !! id = None ->
  Reflect.Elem (dynType i) = Some elem ->
  gateway (Deregister (gateway (Register g id name (Some i))) id) = g.
Proof.
  intros Hid He. rewrite (Register_fresh g id name i elem Hid He).
  unfold Deregister. cbn [gateway with_Things Things].
  rewrite lookup_insert_eq. cbn [gateway with_Things Things].
  rewrite delete_insert_id by exact Hid.
  destruct g; reflexivity.
Qed.

Lemma X4_Register_Deregister_witness :
  gateway (Deregister
             (gateway (Register empty_gateway "lamp1" "Lamp"
                         (Some (lamp "SetOn" "SetOn")))) "lamp1")
  = empty_gateway.
Proof.
  apply (X4_Register_Deregister empty_gateway "lamp1" "Lamp" (lamp "SetOn" "SetOn")
           (Reflect.basic Reflect.Struct "main.Lamp")); reflexivity.
Defined.

(** X5. [Deregister] of a registered id removes that entry and no other,
    shrinks the registry by one and logs the thing's name and kind; of an
    id that is not registered it changes nothing and logs that; so a second
    [Deregister] of the same id is always of the latter sort. *)
Theorem X5_Deregister (g : Gateway) (id : string) :
  (forall w,
     Things g !! id = Some w ->
     Things (gateway (Deregister g id)) !! id = None
     /\ (forall id', id' <> id ->
           Things (gateway (Deregister g id)) !! id' = Things g !! id')
     /\ S (size (Things (gateway (Deregister g id)))) = size (Things g)
     /\ trace (Deregister g id)
        = [Log (LogDeregistered id (Thing_Name (thing w)) (Thing_Kind (thing w)))])
  /\ (Things g !! id = None ->
      Deregister g id
      = {| gateway := g; trace := [Log (LogNotRegistered id)]; ending := Returned |})
  /\ Deregister (gateway (Deregister g id)) id
     = {| gateway := gateway (Deregister g id);
          trace := [Log (LogNotRegistered id)]; ending := Returned |}.
Proof.
  split; [|split].
  - intros w Hw. destruct (Deregister_present g id w Hw) as [Hgone Hframe].
    split; [exact Hgone|]. split; [exact Hframe|].
    unfold Deregister. rewrite Hw. cbn. split; [|reflexivity].
    rewrite map_size_delete, Hw.
    assert (size (Things g) <> 0%nat); [|lia].
    intros Hz. apply map_size_empty_inv in Hz. rewrite Hz in Hw.
    rewrite lookup_empty in Hw. discriminate.
  - apply Deregister_absent.
  - apply Deregister_absent.
    destruct (Things g !! id) as [w|] eqn:Hw.
    + apply (Deregister_present g id w Hw).
    + rewrite (Deregister_absent g id Hw). exact Hw.
Qed.

Lemma X5_Deregister_witness :
  Things (gateway (Deregister (lamp_gateway "SetOn" "SetOn") "lamp1")) !! "lamp1" = None
  /\ Deregister empty_gateway "lamp1"
     = {| gateway := empty_gateway; trace := [Log (LogNotRegistered "lamp1")];
          ending := Returned |}.
Proof.
  pose proof (X5_Deregister (lamp_gateway "SetOn" "SetOn") "lamp1") as [Hpresent _].
  pose proof (X5_Deregister empty_gateway "lamp1") as (_ & Habsent & _).
  split.
  - eapply Hpresent. reflexivity.
  - apply Habsent. reflexivity.
Defined.

(** ** The kind of a thing *)









(** ** The dispatcher *)

Lemma method_by_name_name l name m :
  method_by_name l name = Some m -> Method_Name m = name.
Proof.
  induction l as [|m0 l IH]; cbn [method_by_name]; [discriminate|].
  destruct (String.eqb_spec (Method_Name m0) name) as [Heq|Hne]; [|exact IH].
  intros [= <-]. exact Heq.
Qed.

Lemma find_action_elem l name a : find_action l name = Some a -> a ∈ l.
Proof.
  intros Hf. apply find_action_first in Hf as (pre & post & -> & _).
  set_solver.
Qed.

Section MoreDispatchFacts.
Context `{Platform}.

(** The loop writes the slots from [i] on only. *)
Lemma bind_loop_Bound_head data a m todo :
  forall i args args',
    (1 <= i)%nat ->
    bind_loop data a m i todo args = Bound args' ->
    args' !! 0%nat = args !! 0%nat.
Proof.
  induction todo as [|todo IH]; intros i args args' Hi; cbn [bind_loop].
  - intros [= <-]. reflexivity.
  - destruct (Parameters a !! (i - 1)%nat) as [p|]; [|discriminate].
    destruct (data !! Property_Name p) as [v|].
    + destruct (In_ m i) as [t|]; [|discriminate].
      destruct (convert (Property_Type p) t v) as [[r [e|]]|]; try discriminate.
      intros Hb. apply IH in Hb; [|lia]. rewrite Hb.
      apply list_lookup_insert_ne. lia.
    + intros Hb. apply IH in Hb; [|lia]. rewrite Hb.
      apply list_lookup_insert_ne. lia.
Qed.

(** The loop reads the envelope at the names of the declared parameters
    only. *)
Lemma bind_loop_ext d1 d2 a m todo :
  (forall p, p ∈ Parameters a -> d1 !! Property_Name p = d2 !! Property_Name p) ->
  forall i args, bind_loop d1 a m i todo args = bind_loop d2 a m i todo args.
Proof.
  intros Hagree. induction todo as [|todo IH]; intros i args; [reflexivity|].
  cbn [bind_loop].
  destruct (Parameters a !! (i - 1)%nat) as [p|] eqn:Hp; [|reflexivity].
  rewrite (Hagree p) by (eapply list_elem_of_lookup_2; exact Hp).
  destruct (d2 !! Property_Name p) as [v|]; [|apply IH].
  destruct (In_ m i) as [t|]; [|reflexivity].
  destruct (convert (Property_Type p) t v) as [[r [e|]]|]; auto.
Qed.

(** The loop and the list of bound values: with the parameters [done]
    bound to [vs_done] and [rest] to go, the loop fills the remaining slots
    with the values of [bind_all]. *)
Lemma bind_loop_bind_all data a m recv :
  forall rest done vs_done vs,
    Parameters a = (done ++ rest)%list ->
    length vs_done = length done ->
    bind_all data m (length done) rest = Some vs ->
    bind_loop data a m (S (length done)) (length rest)
      (recv :: (ValueOf <$> vs_done) ++ replicate (length rest) Zero)
    = Bound (recv :: (ValueOf <$> vs_done) ++ (ValueOf <$> vs)).
Proof.
  induction rest as [|p rest IH]; intros done vs_done vs Hps Hlen Hall.
  - cbn in Hall. injection Hall as <-. reflexivity.
  - cbn [bind_all] in Hall.
    destruct (bind_one data m (length done) p) as [v|] eqn:Hone; [|discriminate].
    destruct (bind_all data m (S (length done)) rest) as [vs'|] eqn:Hrest;
      [|discriminate].
    injection Hall as <-.
    cbn [bind_loop length].
    replace (S (length done) - 1)%nat with (length done) by lia.
    rewrite Hps, list_lookup_middle by reflexivity.
    assert (Hslot :
      (<[S (length done) := ValueOf v]>
         (recv :: (ValueOf <$> vs_done) ++ replicate (S (length rest)) Zero)
       = recv :: (ValueOf <$> (vs_done ++ [v])) ++ replicate (length rest) Zero)%list).
    { cbn [replicate]. change (<[S (length done) := ValueOf v]> (recv :: ?l))
        with (recv :: <[length done := ValueOf v]> l).
      f_equal. rewrite insert_app_r_alt by (rewrite length_fmap; lia).
      rewrite length_fmap, Hlen, Nat.sub_diag. cbn [insert list_insert].
      rewrite fmap_app, <- app_assoc. reflexivity. }
    assert (Hnext :
      bind_loop data a m (S (S (length done))) (length rest)
        (recv :: (ValueOf <$> (vs_done ++ [v])) ++ replicate (length rest) Zero)%list
      = Bound (recv :: (ValueOf <$> vs_done) ++ (ValueOf <$> (v :: vs')))%list).
    { assert (Hl : length (done ++ [p]) = S (length done))
        by (rewrite length_app; cbn; lia).
      assert (IH' := IH (done ++ [p])%list (vs_done ++ [v])%list vs').
      rewrite Hl in IH'. rewrite IH'.
      - rewrite fmap_app, <- app_assoc. reflexivity.
      - rewrite Hps, <- app_assoc. reflexivity.
      - rewrite length_app. cbn. lia.
      - exact Hrest. }
    unfold bind_one in Hone. unfold In_.
    replace (S (length done) - 1)%nat with (length done) by lia.
    destruct (data !! Property_Name p) as [v0|].
    + destruct (Method_In m !! length done) as [t|]; [|discriminate].
      destruct (convert (Property_Type p) t v0) as [[r [e|]]|]; try discriminate.
      injection Hone as ->. rewrite Hslot. exact Hnext.
    + injection Hone as ->. rewrite Hslot. exact Hnext.
Qed.

End MoreDispatchFacts.

Section DispatchShape.
Context `{Platform}.



Lemma bind_all_lookup data m :
  forall ps j vs k p,
    bind_all data m j ps = Some vs ->
    ps !! k = Some p ->
    exists v, bind_one data m (j + k) p = Some v /\ vs !! k = Some v.
Proof.
  induction ps as [|p0 ps IH]; intros j vs k p Hall Hk; [done|].
  cbn [bind_all] in Hall.
  destruct (bind_one data m j p0) as [v0|] eqn:H0; [|discriminate].
  destruct (bind_all data m (S j) ps) as [vs'|] eqn:Hrest; [|discriminate].
  injection Hall as <-. destruct k as [|k].
  - injection Hk as <-. exists v0. rewrite Nat.add_0_r. auto.
  - destruct (IH (S j) vs' k p Hrest Hk) as (v & Hv & Hvk).
    exists v. replace (j + S k)%nat with (S j + k)%nat by lia. auto.
Qed.

Lemma bind_all_length data m :
  forall ps j vs, bind_all data m j ps = Some vs -> length vs = length ps.
Proof.
  induction ps as [|p0 ps IH]; intros j vs Hall; cbn [bind_all] in Hall.
  - injection Hall as <-. reflexivity.
  - destruct (bind_one data m j p0); [|discriminate].
    destruct (bind_all data m (S j) ps) as [vs'|] eqn:Hrest; [|discriminate].
    injection Hall as <-. cbn. rewrite (IH _ _ Hrest). reflexivity.
Qed.

(** With as many slots as declared parameters, the loop leaves the receiver
    followed by the bound values, and the method is called on them. *)
Lemma bind_and_call_bind_all w data a m vs :
  NumIn m = (length (Parameters a) + 1)%nat ->
  bind_all data m 0 (Parameters a) = Some vs ->
  bind_and_call w data a m
  = Call m (OfInstance (instance w) :: (ValueOf <$> vs)).
Proof.
  intros Hn Hall. unfold bind_and_call.
  rewrite initial_args_length. cbn [Nat.sub].
  assert (Hlen : length (Method_In m) = length (Parameters a))
    by (unfold NumIn in Hn; lia).
  unfold NumIn at 1. rewrite Hlen, Nat.sub_0_r. cbn [replicate].
  change (<[0%nat := OfInstance (instance w)]> (Zero :: ?l))
    with (OfInstance (instance w) :: l).
  pose proof (bind_loop_bind_all data a m (OfInstance (instance w))
                (Parameters a) [] [] vs eq_refl eq_refl Hall) as Hloop.
  cbn [length fmap list_fmap app] in Hloop. rewrite Hloop.
  destruct (Nat.eqb_spec (NumIn m) (length (Parameters a) + 2)); [lia|].
  reflexivity.
Qed.

Lemma bind_and_call_shape w data a m :
  arity_ok a m ->
  (exists e, bind_and_call w data a m = ([Log (LogError e)], Returned))
  \/ (exists p, bind_and_call w data a m = ([], Panicked p))
  \/ (exists args,
        bind_and_call w data a m
        = ([MethodCall (instance w) (Method_Name m) args], Returned)).
Proof.
  intros [Hn | Hn].
  - unfold bind_and_call.
    destruct (bind_loop data a m 1 _ _) as [args'|e|p] eqn:Hloop;
      [|left; eauto|right; left; eauto].
    apply bind_loop_Bound_head in Hloop; [|lia].
    destruct (Nat.eqb_spec (NumIn m) (length (Parameters a) + 2)); [lia|].
    unfold Call. destruct (existsb is_zero args'); [right; left; eauto|].
    destruct args' as [|r rest]; [discriminate|].
    cbn in Hloop. injection Hloop as ->.
    destruct (check_args m 1 rest); [right; left; eauto|right; right; eauto].
  - destruct (bind_and_call_extra_slot w data a m Hn) as [[e He] | Hp];
      [left; eauto|right; left; eauto].
Qed.

Lemma bind_and_call_ext w d1 d2 a m :
  d1 !! "payload" = d2 !! "payload" ->
  (forall p, p ∈ Parameters a -> d1 !! Property_Name p = d2 !! Property_Name p) ->
  bind_and_call w d1 a m = bind_and_call w d2 a m.
Proof.
  intros Hpay Hps. unfold bind_and_call.
  rewrite (bind_loop_ext d1 d2 a m _ Hps), Hpay. reflexivity.
Qed.

Lemma dispatch_ext g d1 d2 : agree g d1 d2 -> dispatch g d1 = dispatch g d2.
Proof.
  intros (Hid & Hact & Hpay & Hps). unfold dispatch.
  assert (Hpair : forall d,
    match d !! "id" with
    | Some id => (id, true)
    | None => match d !! "name" with
              | Some id => (id, true)
              | None => (VNil, false)
              end
    end = match resolved_id d with
          | Some id => (id, true)
          | None => (VNil, false)
          end).
  { intros d. unfold resolved_id. destruct (d !! "id"); reflexivity. }
  rewrite !Hpair, Hid, Hact.
  destruct (resolved_id d2) as [id|]; [|reflexivity]. cbn [negb].
  destruct (assert_string id) as [ids|]; [|reflexivity].
  destruct (Things g !! ids) as [w|] eqn:Hw; [|reflexivity].
  destruct (d2 !! "action") as [action|]; [|reflexivity].
  destruct (assert_string action) as [name|]; [|reflexivity].
  destruct (FindAction (thing w) name) as [a|] eqn:Ha; [|reflexivity].
  destruct (MethodByName (instance w) name) as [m|]; [|reflexivity].
  rewrite (bind_and_call_ext w d1 d2 a m Hpay); [reflexivity|].
  intros p Hp. apply (Hps ids w a p Hw); [|exact Hp].
  apply (find_action_elem _ name). exact Ha.
Qed.

Lemma dispatch_shape g data :
  (exists l, dispatch g data = ([Log l], Returned))
  \/ (exists p, dispatch g data = ([], Panicked p))
  \/ (exists ids w name args,
        resolved_id data = Some (VString ids) /\
        Things g !! ids = Some w /\
        data !! "action" = Some (VString name) /\
        dispatch g data = ([MethodCall (instance w) name args], Returned)).
Proof.
  unfold dispatch, resolved_id.
  assert (Hstr : forall v, (exists s, v = VString s) \/
                           (exists p, assert_string v = Panics p)).
  { intros v. destruct v; eauto; right; eexists; reflexivity. }
  destruct (data !! "id") as [id|] eqn:Eid.
  2: destruct (data !! "name") as [id|] eqn:Ename.
  3: { left. cbn. eauto. }
  all: cbn [negb].
  all: destruct (Hstr id) as [[ids ->] | [p Hp]];
         [cbn [assert_string]|rewrite Hp; right; left; eauto].
  all: destruct (Things g !! ids) as [w|] eqn:Ew; [|left; eauto].
  all: destruct (data !! "action") as [action|] eqn:Eact; [|left; eauto].
  all: destruct (Hstr action) as [[name ->] | [p Hp]];
         [cbn [assert_string]|rewrite Hp; right; left; eauto].
  all: destruct (FindAction (thing w) name) as [a|] eqn:Ea; [|left; eauto].
  all: destruct (MethodByName (instance w) name) as [m|] eqn:Em; [|left; eauto].
  all: apply method_by_name_name in Em as Hname.
  all: destruct (Nat.eqb_spec (NumIn m) (length (Parameters a) + 1)) as [Hn1|Hn1];
         cbn [negb andb].
  all: try destruct (Nat.eqb_spec (NumIn m) (length (Parameters a) + 2)) as [Hn2|Hn2];
         cbn [negb].
  all: try (left; eauto; fail).
  all: match goal with
       | Hname : Method_Name ?m0 = ?name0 |- context [bind_and_call ?w0 ?d0 ?a0 ?m0] =>
           destruct (bind_and_call_shape w0 d0 a0 m0)
             as [[e ->] | [[p ->] | [args ->]]];
             [unfold arity_ok; lia|left; eauto|right; left; eauto|
              right; right; eexists _, w0, name0, args; rewrite Hname; auto]
       end.
Qed.

End DispatchShape.

(** The one parameter the device gateway knows. *)
Lemma device_gateway_parameters q target ids w a p :
  Things (device_gateway q target) !! ids = Some w ->
  a ∈ Actions (thing w) -> p ∈ Parameters a -> p = q.
Proof.
  change (Things (device_gateway q target))
    with (<["dev1" := device_wrapper q target]> (∅ : gmap string wrapper)).
  intros Hw Ha Hp. apply lookup_insert_Some in Hw as [[_ <-] | [_ Hw]].
  - cbn in Ha. apply list_elem_of_singleton in Ha. subst a.
    cbn in Hp. apply list_elem_of_singleton in Hp. exact Hp.
  - rewrite lookup_empty in Hw. discriminate.
Qed.

(** X7. When [Init] leaves the id of the thing alone, [Register] keeps
    every entry of the registry under the id of its thing, and so does
    [Deregister]: the key of the map and the id in the registration
    document stay the same string. *)
Theorem X7_keys_match_kept (g : Gateway) (id name : string)
    (inst : option Instance) :
  keys_match g ->
  (forall i t, inst = Some i -> Id (Init i t) = Id t) ->
  keys_match (gateway (Register g id name inst))
  /\ keys_match (gateway (Deregister g id)).
Proof.
  intros Hg Hinit. split.
  - unfold Register.
    destruct (Things g !! id) as [w0|] eqn:Hid; [exact Hg|].
    destruct inst as [i|]; [|exact Hg].
    destruct (Reflect.Elem (dynType i)) as [elem|]; [|exact Hg].
    intros id' w. cbn [gateway with_Things Things].
    intros Hw. apply lookup_insert_Some in Hw as [[<- <-] | [_ Hw]].
    + cbn [thing]. rewrite (Hinit i _ eq_refl). reflexivity.
    + apply Hg. exact Hw.
  - unfold Deregister.
    destruct (Things g !! id) as [w0|] eqn:Hid; [|exact Hg].
    intros id' w. cbn [gateway with_Things Things].
    intros Hw. apply lookup_delete_Some in Hw as [_ Hw]. apply Hg. exact Hw.
Qed.

Lemma X7_keys_match_kept_witness :
  keys_match (lamp_gateway "SetOn" "SetOn").
Proof.
  apply (X7_keys_match_kept empty_gateway "lamp1" "Lamp"
           (Some (lamp "SetOn" "SetOn"))).
  - intros id w Hw. cbn in Hw. rewrite lookup_empty in Hw. discriminate.
  - intros i t [= <-]. reflexivity.
Defined.

(** X8. Whatever the registry and the envelope, a dispatch ends in one of
    three ways: it logs exactly one line and returns; or it panics, having
    logged and invoked nothing; or it invokes exactly one method and
    returns without logging, and then the method is one of the instance
    registered under the id the envelope names and bears the name of the
    envelope's action. The gateway is never changed. A message from the
    broker, decoded or not, ends in the same three ways. *)
Theorem X8_dispatch_outcomes `{Platform} (g : Gateway) :
  (forall data : gmap string value,
     (exists l,
        CallAction g data = {| gateway := g; trace := [Log l]; ending := Returned |})
     \/ (exists p,
           CallAction g data = {| gateway := g; trace := []; ending := Panicked p |})
     \/ (exists ids w name args,
           resolved_id data = Some (VString ids) /\
           Things g !! ids = Some w /\
           data !! "action" = Some (VString name) /\
           CallAction g data
           = {| gateway := g; trace := [MethodCall (instance w) name args];
                ending := Returned |}))
  /\ (forall payload : string,
        (exists l,
           onMessage g payload
           = {| gateway := g; trace := [Log l]; ending := Returned |})
        \/ (exists p,
              onMessage g payload
              = {| gateway := g; trace := []; ending := Panicked p |})
        \/ (exists w name args,
              onMessage g payload
              = {| gateway := g; trace := [MethodCall (instance w) name args];
                   ending := Returned |})).
Proof.
  assert (Hcall : forall data : gmap string value,
     (exists l,
        CallAction g data = {| gateway := g; trace := [Log l]; ending := Returned |})
     \/ (exists p,
           CallAction g data = {| gateway := g; trace := []; ending := Panicked p |})
     \/ (exists ids w name args,
           resolved_id data = Some (VString ids) /\
           Things g !! ids = Some w /\
           data !! "action" = Some (VString name) /\
           CallAction g data
           = {| gateway := g; trace := [MethodCall (instance w) name args];
                ending := Returned |})).
  { intros data. unfold CallAction.
    destruct (dispatch_shape g data)
      as [[l ->] | [[p ->] | (ids & w & name & args & Hid & Hw & Hact & ->)]].
    - left. eauto.
    - right. left. eauto.
    - right. right. exists ids, w, name, args. auto. }
  split; [exact Hcall|].
  intros payload. unfold onMessage.
  destruct (jsonUnmarshal payload) as [data|err]; [|left; eauto].
  destruct (Hcall data) as [[l ->] | [[p ->] | (ids & w & name & args & _ & _ & _ & ->)]];
    [left; eauto|right; left; eauto|right; right; eauto].
Qed.



(** X10. A declared parameter that the envelope does not carry and that
    has no default (its declared value is nil) makes the dispatch panic in
    the reflective call, once the other parameters are bound: the method is
    not invoked and nothing is logged. *)
Theorem X10_missing_default_panics `{Platform} (g : Gateway)
    (data : gmap string value) (w : wrapper) (a : Action) (m : Method)
    (vs : list value) (j : nat) (p : Property) :
  resolves g data w a m ->
  NumIn m = (length (Parameters a) + 1)%nat ->
  bind_all data m 0 (Parameters a) = Some vs ->
  Parameters a !! j = Some p ->
  data !! Property_Name p = None ->
  Property_Value p = VNil ->
  CallAction g data
  = {| gateway := g; trace := [];
       ending := Panicked (PanicString "reflect: Call using zero Value argument") |}.
Proof.
  intros Hres Hn Hall Hj Habsent Hnil. unfold CallAction.
  rewrite (dispatch_resolved g data w a m Hres); [|left; exact Hn].
  rewrite (bind_and_call_bind_all w data a m vs Hn Hall).
  destruct (bind_all_lookup data m _ _ _ _ _ Hall Hj) as (v & Hv & Hvj).
  unfold bind_one in Hv. rewrite Habsent, Hnil in Hv. injection Hv as <-.
  assert (Hz : existsb is_zero (ValueOf <$> vs) = true).
  { apply existsb_exists. exists Zero. split; [|reflexivity].
    apply list_elem_of_In. apply list_elem_of_fmap. exists VNil. split; [reflexivity|].
    eapply list_elem_of_lookup_2. exact Hvj. }
  unfold Call. cbn [existsb is_zero orb]. rewrite Hz. reflexivity.
Qed.

Lemma X10_missing_default_panics_witness :
  @CallAction sample_platform (device_gateway level_required (ikind_type I32))
    (envelope_set ∅)
  = {| gateway := device_gateway level_required (ikind_type I32); trace := [];
       ending := Panicked (PanicString "reflect: Call using zero Value argument") |}.
Proof.
  apply (@X10_missing_default_panics sample_platform
           (device_gateway level_required (ikind_type I32)) (envelope_set ∅)
           (device_wrapper level_required (ikind_type I32))
           {| Action_Name := "Set"; Parameters := [level_required] |}
           {| Method_Name := "Set"; Method_In := [ikind_type I32] |}
           [VNil] 0%nat level_required).
  - exists "dev1", "Set". repeat split; reflexivity.
  - reflexivity.
  - reflexivity.
  - reflexivity.
  - reflexivity.
  - reflexivity.
Defined.

(** X11. A dispatch reads the envelope at the resolved id, at ["action"],
    at ["payload"] and at the names of the parameters declared by the
    things of the registry, and nowhere else: two envelopes that agree
    there are dispatched alike. *)
Theorem X11_dispatch_reads_only `{Platform} (g : Gateway)
    (d1 d2 : gmap string value) :
  agree g d1 d2 -> CallAction g d1 = CallAction g d2.
Proof.
  intros Hagree. unfold CallAction. rewrite (dispatch_ext g d1 d2 Hagree).
  reflexivity.
Qed.

(** A key ["color"] the device does not declare changes nothing. *)
Lemma X11_dispatch_reads_only_witness :
  @CallAction sample_platform (device_gateway level_param (ikind_type I32))
    (envelope_set (<["color" := VString "red"]> (<["level" := VFloat64 seven]> ∅)))
  = @CallAction sample_platform (device_gateway level_param (ikind_type I32))
      (envelope_set (<["level" := VFloat64 seven]> ∅)).
Proof.
  apply (@X11_dispatch_reads_only sample_platform).
  repeat split; try reflexivity.
  intros ids w a p Hw Ha Hp.
  rewrite (device_gateway_parameters _ _ _ _ _ _ Hw Ha Hp). reflexivity.
Defined.

(** X12. Without ["id"], the value under ["name"] is taken for the id: it
    is looked up among the keys of the registry, not among the names of the
    things, and the dispatch is the one of the envelope that carries the
    value under ["id"] (no declared parameter being called ["id"]). *)
Theorem X12_name_is_the_id `{Platform} (g : Gateway) (data : gmap string value)
    (v : value) :
  data !! "id" = None ->
  data !! "name" = Some v ->
  not_a_parameter g "id" ->
  CallAction g data = CallAction g (<["id" := v]> data).
Proof.
  intros Hid Hname Hnp. unfold CallAction.
  rewrite (dispatch_ext g data (<["id" := v]> data)); [reflexivity|].
  unfold agree, resolved_id. rewrite Hid, Hname, lookup_insert_eq.
  split; [reflexivity|].
  split; [symmetry; apply lookup_insert_ne; discriminate|].
  split; [symmetry; apply lookup_insert_ne; discriminate|].
  intros ids w a p Hw Ha Hp. symmetry. apply lookup_insert_ne.
  intros Heq. exact (Hnp ids w a p Hw Ha Hp (eq_sym Heq)).
Qed.

Lemma X12_name_is_the_id_witness :
  @CallAction sample_platform (device_gateway level_param (ikind_type I32))
    (<["name" := VString "dev1"]> (<["action" := VString "Set"]> ∅))
  = @CallAction sample_platform (device_gateway level_param (ikind_type I32))
      (<["id" := VString "dev1"]>
         (<["name" := VString "dev1"]> (<["action" := VString "Set"]> ∅))).
Proof.
  apply (@X12_name_is_the_id sample_platform); [reflexivity..|].
  intros ids w a p Hw Ha Hp.
  rewrite (device_gateway_parameters _ _ _ _ _ _ Hw Ha Hp). discriminate.
Defined.

(** X13. When the values the envelope has for the id and for the action
    are strings, every message that does not resolve to a registered thing,
    a declared action and a method of acceptable arity is answered by
    exactly one log line and a normal return: nothing is invoked and the
    gateway is as before. *)
Theorem X13_unresolved_only_logs `{Platform} (g : Gateway)
    (data : gmap string value) :
  string_keys data ->
  (forall w a m, resolves g data w a m -> ~ arity_ok a m) ->
  exists l,
    CallAction g data = {| gateway := g; trace := [Log l]; ending := Returned |}.
Proof.
  intros Hkeys Hno. unfold CallAction.
  destruct (dispatch_unresolved_only_logs g data Hkeys Hno) as [l ->]. eauto.
Qed.

(** A message for an id nobody registered. *)
Lemma X13_unresolved_only_logs_witness :
  exists l,
    @CallAction sample_platform empty_gateway (envelope_set ∅)
    = {| gateway := empty_gateway; trace := [Log l]; ending := Returned |}.
Proof.
  apply (@X13_unresolved_only_logs sample_platform).
  - split; intros v Hv; vm_compute in Hv; injection Hv as <-; eauto.
  - intros w a m (ids & name & Hid & Hw & _).
    vm_compute in Hid. injection Hid as <-.
    cbn in Hw. rewrite lookup_empty in Hw. discriminate.
Defined.

(** An action that is not a string, for a thing that is registered,
    makes the dispatch panic on the unchecked assertion, like an id that is
    not a string: nothing is logged. *)
Lemma dispatch_action_not_string `{Platform} (g : Gateway)
    (data : gmap string value) (ids : string) (w : wrapper) (v : value) :
  resolved_id data = Some (VString ids) ->
  Things g !! ids = Some w ->
  data !! "action" = Some v ->
  (forall s, v <> VString s) ->
  CallAction g data
  = {| gateway := g; trace := [];
       ending := Panicked (PanicError
                   (TypeAssertionError (TypeOf v) Reflect.string_t)) |}.
Proof.
  intros Hid Hw Hact Hns. unfold CallAction, dispatch.
  unfold resolved_id in Hid.
  assert (Hpair :
    match data !! "id" with
    | Some id => (id, true)
    | None => match data !! "name" with
              | Some id => (id, true)
              | None => (VNil, false)
              end
    end = (VString ids, true)).
  { destruct (data !! "id"); [congruence|]. rewrite Hid. reflexivity. }
  rewrite Hpair. cbn [negb assert_string]. rewrite Hw, Hact.
  destruct v; try reflexivity. destruct (Hns s eq_refl).
Qed.

(** X14. Once a thing is deregistered, a message for its id is answered
    as for an id that was never registered: one log line that the thing is
    not available, and nothing invoked. *)
Theorem X14_dispatch_after_Deregister `{Platform} (g : Gateway) (id : string)
    (w : wrapper) (rest : gmap string value) :
  Things g !! id = Some w ->
  CallAction (gateway (Deregister g id)) (<["id" := VString id]> rest)
  = {| gateway := gateway (Deregister g id);
       trace := [Log (LogThingNotAvailable (VString id))];
       ending := Returned |}.
Proof.
  intros Hw. unfold CallAction.
  rewrite (dispatch_after_Deregister g id w rest Hw). reflexivity.
Qed.

Lemma X14_dispatch_after_Deregister_witness :
  @CallAction sample_platform
    (gateway (Deregister (lamp_gateway "SetOn" "SetOn") "lamp1"))
    (envelope_default "SetOn")
  = {| gateway := gateway (Deregister (lamp_gateway "SetOn" "SetOn") "lamp1");
       trace := [Log (LogThingNotAvailable (VString "lamp1"))];
       ending := Returned |}.
Proof.
  apply (@X14_dispatch_after_Deregister sample_platform
           (lamp_gateway "SetOn" "SetOn") "lamp1"
           {| thing := Init (lamp "SetOn" "SetOn") (blank_thing "lamp1" "Lamp" "lamp");
              instance := lamp "SetOn" "SetOn" |}).
  reflexivity.
Defined.

(** ** Coercion, further *)

Section MoreConvertFacts.
Context `{Platform}.

Lemma ikind_bits_pos k : 0 < intSize -> 0 < ikind_bits k.
Proof. intros Hsize. destruct k; cbn [ikind_bits]; lia. Qed.

Lemma wrap_in_range k z : 0 < intSize -> in_range k (wrap k z) = true.
Proof.
  intros Hsize. pose proof (ikind_bits_pos k Hsize) as Hb.
  unfold in_range, wrap, ikind_min, ikind_max.
  assert (Hpow : 2 ^ ikind_bits k = 2 * 2 ^ (ikind_bits k - 1)).
  { rewrite <- Z.pow_succ_r by lia. f_equal. lia. }
  assert (Hpos : 0 < 2 ^ (ikind_bits k - 1)) by (apply Z.pow_pos_nonneg; lia).
  assert (Hpos' : 0 < 2 ^ ikind_bits k) by (apply Z.pow_pos_nonneg; lia).
  destruct (ikind_signed k).
  - pose proof (Z.mod_pos_bound (z + 2 ^ (ikind_bits k - 1)) (2 ^ ikind_bits k)
                  Hpos').
    apply andb_true_iff. split; apply Z.leb_le; lia.
  - pose proof (Z.mod_pos_bound z (2 ^ ikind_bits k) Hpos').
    apply andb_true_iff. split; apply Z.leb_le; lia.
Qed.

Lemma float_to_int_in_range k f :
  0 < intSize -> in_range k (float_to_int k f) = true.
Proof.
  intros Hsize. unfold float_to_int.
  destruct (truncate f) as [z|]; [|apply wrap_in_range; exact Hsize].
  destruct (in_range k z) eqn:Hz; [exact Hz|apply wrap_in_range; exact Hsize].
Qed.

Lemma truncate_finite s m e :
  truncate (S754_finite s m e) = Some (cond_Zopp s (magnitude m e)).
Proof.
  unfold truncate, magnitude. f_equal. f_equal.
  destruct (Z.leb_spec 0 e).
  - apply Z.shiftl_mul_pow2. assumption.
  - rewrite <- (Z.opp_involutive e) at 1.
    rewrite Z.shiftl_opp_r. apply Z.shiftr_div_pow2. lia.
Qed.

Lemma convert_integer_kind param target v r k :
  Reflect.Kind_of target = Reflect.Kind_of (ikind_type k) ->
  convert param target v = Normal (r, None) ->
  exists f, v = VFloat64 f /\ r = VInt k (float_to_int k f).
Proof.
  destruct target as [kd s e]. cbn [Reflect.Kind_of]. intros ->.
  destruct k, v; cbn; intros [= <-]; eauto.
Qed.

End MoreConvertFacts.

(** X15. When [convert] succeeds for a target of an integer kind, the
    value came as a float64 and the result is an integer of that kind
    within the bounds of the type, also when the float was out of range,
    an infinity or a NaN. *)
Theorem X15_convert_integer_in_range `{Platform} (param : Z)
    (target : Reflect.Type_) (k : ikind) (v r : value) :
  0 < intSize ->
  Reflect.Kind_of target = Reflect.Kind_of (ikind_type k) ->
  convert param target v = Normal (r, None) ->
  exists f n,
    v = VFloat64 f /\ r = VInt k n /\ ikind_min k <= n <= ikind_max k.
Proof.
  intros Hsize Hk Hc.
  destruct (convert_integer_kind param target v r k Hk Hc) as (f & -> & ->).
  exists f, (float_to_int k f). split; [reflexivity|]. split; [reflexivity|].
  pose proof (float_to_int_in_range k f Hsize) as Hr.
  unfold in_range in Hr. apply andb_true_iff in Hr as [Hlo Hhi].
  apply Z.leb_le in Hlo. apply Z.leb_le in Hhi. lia.
Qed.

(** The float 300.0 sent to a uint8 parameter. *)
Lemma X15_convert_integer_in_range_witness :
  exists f n,
    VFloat64 (float64_of_pos 300) = VFloat64 f /\
    VInt U8 0 = VInt U8 n /\
    @ikind_min sample_platform U8 <= n <= @ikind_max sample_platform U8.
Proof.
  apply (@X15_convert_integer_in_range sample_platform PropertyTypeInt
           (ikind_type U8) U8 (VFloat64 (float64_of_pos 300)) (VInt U8 0));
    reflexivity.
Defined.

(** X16. For a finite float of sign [s] and magnitude [m * 2^e] whose
    integer part fits the target type, the conversion to an integer drops
    the fraction towards zero: the result has the sign of the float and the
    magnitude [m * 2^e] for [e >= 0] and the quotient [m / 2^(-e)]
    otherwise. *)
Theorem X16_convert_truncates `{Platform} (param : Z) (k : ikind)
    (s : bool) (m : positive) (e : Z) :
  in_range k (cond_Zopp s (magnitude m e)) = true ->
  convert param (ikind_type k) (VFloat64 (S754_finite s m e))
  = Normal (VInt k (cond_Zopp s (magnitude m e)), None).
Proof.
  intros Hr.
  assert (Hf : float_to_int k (S754_finite s m e) = cond_Zopp s (magnitude m e)).
  { unfold float_to_int. rewrite truncate_finite, Hr. reflexivity. }
  destruct k; cbn [convert convert_body ikind_type Reflect.basic Reflect.Kind_of
                   to_int assert_float64]; unfold convert, convert_body;
    cbn [ikind_type Reflect.basic Reflect.Kind_of to_int assert_float64];
    rewrite Hf; reflexivity.
Qed.

(** Minus 7.5, as 15 * 2^-1, becomes -7 for an int8 parameter. *)
Lemma X16_convert_truncates_witness :
  @convert sample_platform PropertyTypeInt (ikind_type I8)
    (VFloat64 (S754_finite true 15 (-1)))
  = Normal (VInt I8 (-7), None).
Proof.
  apply (@X16_convert_truncates sample_platform PropertyTypeInt I8 true 15 (-1)).
  reflexivity.
Defined.

(** X17. A value [convert] returns is of the predeclared type of the
    target's kind: of the target type itself when that is predeclared, and
    then the reflective call accepts it; for a target type declared over
    such a kind the value is still of the predeclared type. *)
Theorem X17_convert_result_type `{Platform} (param : Z)
    (target : Reflect.Type_) (v r : value) :
  convert param target v = Normal (r, None) ->
  (exists t, TypeOf r = Some t /\ predeclared t /\
             Reflect.Kind_of t = Reflect.Kind_of target)
  /\ (predeclared target ->
      TypeOf r = Some target /\ AssignableTo target target = true).
Proof.
  intros Hc. split.
  - destruct target as [kd s e].
    destruct kd, v; cbn in Hc; try discriminate;
      injection Hc as <-; cbn [TypeOf];
      eexists; (split; [reflexivity|]); (split; [|reflexivity]);
      unfold predeclared;
      first [ left; eexists I; reflexivity | left; eexists I8; reflexivity
            | left; eexists I16; reflexivity | left; eexists I32; reflexivity
            | left; eexists I64; reflexivity | left; eexists U; reflexivity
            | left; eexists U8; reflexivity | left; eexists U16; reflexivity
            | left; eexists U32; reflexivity | left; eexists U64; reflexivity
            | right; left; reflexivity | right; right; left; reflexivity
            | right; right; right; reflexivity ].
  - intros [[k ->] | [-> | [-> | ->]]].
    + destruct (convert_integer_kind param _ v r k eq_refl Hc) as (f & -> & ->).
      split; [reflexivity|]. destruct k; reflexivity.
    + destruct v; cbn in Hc; try discriminate. injection Hc as <-.
      split; reflexivity.
    + destruct v; cbn in Hc; try discriminate. injection Hc as <-.
      split; reflexivity.
    + cbn in Hc. injection Hc as <-. split; reflexivity.
Qed.

Lemma X17_convert_result_type_witness :
  TypeOf (VInt I32 7) = Some (ikind_type I32)
  /\ @AssignableTo sample_platform (ikind_type I32) (ikind_type I32) = true.
Proof.
  apply (@X17_convert_result_type sample_platform PropertyTypeInt (ikind_type I32)
           (VFloat64 seven) (VInt I32 7)).
  - reflexivity.
  - left. exists I32. reflexivity.
Defined.

(** ** Construction and the connector, further *)

Lemma string_app_inv_head (a b c : string) : (a ++ b = a ++ c)%string -> b = c.
Proof.
  induction a as [|x a IH]; [auto|].
  change (String x (a ++ b) = String x (a ++ c) -> b = c)%string.
  intros [= Heq]. auto.
Qed.

Lemma topic_leaf_inj ns name l1 l2 : topic ns name l1 = topic ns name l2 -> l1 = l2.
Proof.
  unfold topic. intros Heq.
  repeat (apply string_app_inv_head in Heq). exact Heq.
Qed.

(** X18. The namespace of the topics is never empty and holds no ["@"]: it
    is the account without its ["@"] characters, or ["_"] when nothing is
    left; an account without ["@"] that is not empty is its own
    namespace. *)
Theorem X18_namespace (account : string) :
  namespace account <> ""
  /\ GoStrings.contains (namespace account) "@" = false
  /\ (GoStrings.contains account "@" = false -> account <> "" ->
      namespace account = account).
Proof.
  unfold namespace.
  pose proof (ReplaceAll_removes account "@" "" eq_refl) as Hno.
  destruct (String.eqb_spec (GoStrings.ReplaceAll account "@" "") "") as [He|Hne].
  - split; [discriminate|]. split; [reflexivity|].
    intros Hat Hnonempty. rewrite ReplaceAll_absent in He by exact Hat.
    contradiction.
  - split; [exact Hne|]. split; [exact Hno|].
    intros Hat _. apply ReplaceAll_absent. exact Hat.
Qed.

Lemma X18_namespace_witness : namespace "team-a" = "team-a".
Proof. apply (X18_namespace "team-a"); [reflexivity|discriminate]. Defined.

Section MoreConstructionFacts.
Context `{Platform}.

Lemma NewGateway_state name server connServer account opts g :
  NewGateway name server connServer account opts = Normal (inl g) ->
  Things g = ∅ /\ registered g = 0 /\ Mode g = GatewayModeMqtt /\
  deviotServer g = server /\
  (exists c, connector g = Some c /\ client c = None /\
             connectorServer c = connServer /\
             DataTopic c = Data g /\ ActionTopic c = Action_ g) /\
  Kind g = match opts with
           | Some o => match o !! "kind" with
                       | Some (VString k) => k
                       | _ => "device"
                       end
           | None => "device"
           end.
Proof.
  unfold NewGateway, NewMqttConnector. intros Heq.
  repeat case_match; simplify_eq; cbn;
    repeat split; eauto;
    try (eexists; repeat split; reflexivity);
    try match goal with
        | Hs : assert_string _ = Normal _ |- _ =>
            cbn in Hs; simplify_eq; reflexivity
        end.
Qed.

End MoreConstructionFacts.

(** X19. A gateway that [NewGateway] returns has an empty registry, is not
    registered, is in MQTT mode and has a connector without a client; its
    kind is ["device"] unless the options carry a string under ["kind"],
    which is then the kind. *)
Theorem X19_NewGateway_initial_state `{Platform}
    (name server connServer account : string)
    (opts : option (gmap string value)) (g : Gateway) :
  NewGateway name server connServer account opts = Normal (inl g) ->
  Things g = ∅
  /\ IsRegistered g = false
  /\ Mode g = GatewayModeMqtt
  /\ deviotServer g = server
  /\ (exists c, connector g = Some c /\ client c = None)
  /\ Kind g = match opts with
              | Some o => match o !! "kind" with
                          | Some (VString k) => k
                          | _ => "device"
                          end
              | None => "device"
              end.
Proof.
  intros Hnew.
  destruct (NewGateway_state _ _ _ _ _ _ Hnew)
    as (Ht & Hr & Hm & Hs & (c & Hc & Hcl & _) & Hk).
  split; [exact Ht|]. split; [unfold IsRegistered; rewrite Hr; reflexivity|].
  split; [exact Hm|]. split; [exact Hs|]. split; [eauto|exact Hk].
Qed.

Lemma X19_NewGateway_initial_state_witness :
  exists g,
    @NewGateway sample_platform "gw" "http://deviot" "broker" "me"
      (Some (<["kind" := VString "hub"]> ∅))
    = Normal (inl g)
    /\ Things g = ∅ /\ Kind g = "hub".
Proof.
  destruct (@NewGateway sample_platform "gw" "http://deviot" "broker" "me"
              (Some (<["kind" := VString "hub"]> ∅))) as [[g|e]|p] eqn:E;
    [|vm_compute in E; discriminate..].
  exists g. split; [reflexivity|].
  destruct (@X19_NewGateway_initial_state sample_platform _ _ _ _ _ _ E)
    as (Ht & _ & _ & _ & _ & Hk).
  split; [exact Ht|exact Hk].
Defined.

(** X20. [NewGateway] panics exactly when the options carry a value under
    ["kind"] that is not a string; otherwise it returns a gateway, or the
    error of the connector's construction. *)
Theorem X20_NewGateway_panics_on_kind `{Platform}
    (name server connServer account : string)
    (opts : option (gmap string value)) :
  (exists p, NewGateway name server connServer account opts = Panics p) <->
  (exists o v, opts = Some o /\ o !! "kind" = Some v /\ forall s, v <> VString s).
Proof.
  unfold NewGateway. split.
  - intros [p Hp].
    destruct opts as [o|]; [|repeat case_match; discriminate].
    destruct (o !! "kind") as [v|] eqn:Hv; [|repeat case_match; discriminate].
    exists o, v. split; [reflexivity|]. split; [exact Hv|].
    intros s ->. cbn in Hp. repeat case_match; discriminate.
  - intros (o & v & -> & Hv & Hns). rewrite Hv.
    destruct v; cbn; eauto. destruct (Hns s eq_refl).
Qed.

(** Options whose kind is the number 7. *)
Lemma X20_NewGateway_panics_on_kind_witness :
  exists p,
    @NewGateway sample_platform "gw" "http://deviot" "broker" "me"
      (Some (<["kind" := VFloat64 seven]> ∅))
    = Panics p.
Proof.
  apply (@X20_NewGateway_panics_on_kind sample_platform).
  exists (<["kind" := VFloat64 seven]> ∅), (VFloat64 seven).
  split; [reflexivity|]. split; [reflexivity|]. discriminate.
Defined.

(** X21. The data topic and the action topic of a gateway are different
    strings, on the gateway and on its connector: telemetry is never
    published to the topic the commands arrive on. *)
Theorem X21_topics_differ `{Platform}
    (name server connServer account : string)
    (opts : option (gmap string value)) (g : Gateway) :
  NewGateway name server connServer account opts = Normal (inl g) ->
  Data g <> Action_ g
  /\ exists c, connector g = Some c /\ DataTopic c <> ActionTopic c.
Proof.
  intros Hnew.
  destruct (NewGateway_fields _ _ _ _ _ _ Hnew)
    as (_ & _ & Hd & Ha & c & Hc & Hdt & Hat).
  assert (Hne : Data g <> Action_ g).
  { rewrite Hd, Ha. intros Heq. apply topic_leaf_inj in Heq. discriminate. }
  split; [exact Hne|]. exists c. split; [exact Hc|]. rewrite Hdt, Hat. exact Hne.
Qed.

Lemma X21_topics_differ_witness :
  exists g,
    @NewGateway sample_platform "gw" "http://deviot" "broker" "me" None
    = Normal (inl g)
    /\ Data g <> Action_ g.
Proof.
  destruct (@NewGateway sample_platform "gw" "http://deviot" "broker" "me" None)
    as [[g|e]|p] eqn:E; [|vm_compute in E; discriminate..].
  exists g. split; [reflexivity|].
  apply (@X21_topics_differ sample_platform _ _ _ _ _ _ E).
Defined.

(** X22. [NewMqttConnector] takes the port from the server when it names
    one and 1883 otherwise, in which case the host is all of the URL's host
    part; it fails exactly when the URL does not parse or the port it names
    is not a number, and it leaves name, account, kind and registry of the
    gateway alone. *)
Theorem X22_NewMqttConnector_port `{Platform} (g : Gateway) (server : string) :
  (forall g' c,
     NewMqttConnector g server = inl (g', c) ->
     exists uHost,
       urlHost server = inl uHost /\
       (if String.eqb (splitHostPort uHost).2 ""
        then Port g' = defaultPort /\ Host g' = uHost
        else atoi (splitHostPort uHost).2 = inl (Port g') /\
             Host g' = (splitHostPort uHost).1) /\
       Name g' = Name g /\ Account g' = Account g /\ Kind g' = Kind g /\
       Things g' = Things g /\ connectorServer c = server)
  /\ (forall err,
        NewMqttConnector g server = inr err <->
        urlHost server = inr err \/
        exists uHost,
          urlHost server = inl uHost /\
          (splitHostPort uHost).2 <> "" /\
          atoi (splitHostPort uHost).2 = inr err).
Proof.
  unfold NewMqttConnector. split.
  - intros g' c Heq.
    destruct (urlHost server) as [uHost|e]; [|discriminate].
    exists uHost. split; [reflexivity|].
    destruct (splitHostPort uHost) as [host portStr]. cbn [fst snd].
    destruct (String.eqb portStr ""); cbn [negb] in Heq.
    + injection Heq as <- <-. cbn. auto 10.
    + destruct (atoi portStr) as [port|e]; [|discriminate].
      injection Heq as <- <-. cbn. auto 10.
  - intros err.
    destruct (urlHost server) as [uHost|e].
    + destruct (splitHostPort uHost) as [host portStr] eqn:Hsplit. cbn [fst snd].
      destruct (String.eqb_spec portStr "") as [->|Hne]; cbn [negb].
      * split; [discriminate|].
        intros [Hu | (u & Hu & Hp & _)]; [discriminate|].
        injection Hu as <-. rewrite Hsplit in Hp. cbn in Hp. contradiction.
      * destruct (atoi portStr) as [port|e] eqn:Hatoi.
        -- split; [discriminate|].
           intros [Hu | (u & Hu & _ & Ha)]; [discriminate|].
           injection Hu as <-. rewrite Hsplit in Ha. cbn in Ha. congruence.
        -- split.
           ++ intros [= <-]. right. exists uHost. rewrite Hsplit. cbn. auto.
           ++ intros [Hu | (u & Hu & _ & Ha)]; [discriminate|].
              injection Hu as <-. rewrite Hsplit in Ha. cbn in Ha. congruence.
    + split.
      * intros [= <-]. left. reflexivity.
      * intros [[= <-] | (u & Hu & _)]; [reflexivity|discriminate].
Qed.

Lemma X22_NewMqttConnector_port_witness :
  exists g' c,
    @NewMqttConnector sample_platform empty_gateway "broker" = inl (g', c)
    /\ Port g' = 1883 /\ Host g' = "broker".
Proof.
  destruct (@NewMqttConnector sample_platform empty_gateway "broker")
    as [[g' c]|e] eqn:E; [|vm_compute in E; discriminate].
  exists g', c. split; [reflexivity|].
  destruct (@X22_NewMqttConnector_port sample_platform empty_gateway "broker")
    as [Hok _].
  destruct (Hok g' c E) as (uHost & Hu & Hport & _).
  vm_compute in Hu. injection Hu as <-. exact Hport.
Defined.

(** ** Start, Stop and telemetry *)

(** X23. Telemetry sent through a gateway fresh from [NewGateway], before
    [Start] has made a client, is dropped: [SendData] publishes nothing and
    returns no error. *)
Theorem X23_SendData_before_Start `{Platform}
    (name server connServer account : string)
    (opts : option (gmap string value)) (g : Gateway) (data : gmap string value) :
  NewGateway name server connServer account opts = Normal (inl g) ->
  SendData g data = Normal ([], None).
Proof.
  intros Hnew.
  destruct (NewGateway_state _ _ _ _ _ _ Hnew)
    as (_ & _ & _ & _ & (c & Hc & Hcl & _) & _).
  unfold SendData, Publish. rewrite Hc, Hcl. reflexivity.
Qed.

Lemma X23_SendData_before_Start_witness :
  exists g,
    @NewGateway sample_platform "gw" "http://deviot" "broker" "me" None
    = Normal (inl g)
    /\ @SendData sample_platform g (<["temperature" := VFloat64 seven]> ∅)
       = Normal ([], None).
Proof.
  destruct (@NewGateway sample_platform "gw" "http://deviot" "broker" "me" None)
    as [[g|e]|p] eqn:E; [|vm_compute in E; discriminate..].
  exists g. split; [reflexivity|].
  apply (@X23_SendData_before_Start sample_platform _ _ _ _ _ _ _ E).
Defined.

(** X24. Once a gateway from [NewGateway] has started with a client that
    is connected, [SendData] publishes the JSON of the data exactly once,
    on the topic [/deviot/<namespace>/<sanitized name>/data], with QoS 0
    and not retained, and returns the error of that publish. *)
Theorem X24_SendData_after_Start `{Platform}
    (name server connServer account : string)
    (opts : option (gmap string value)) (g g' : Gateway) (cl : Client)
    (evs : list lifecycle_event) (data : gmap string value) :
  NewGateway name server connServer account opts = Normal (inl g) ->
  Gateway_Start g cl None = Normal (g', evs, None) ->
  IsConnected cl = true ->
  SendData g' data
  = Normal
      ([MqttPublish
          (topic (namespace account) (GoStrings.ReplaceAll name "-" "_") "data")
          0 false (jsonMarshal data)],
       publishError cl
         (topic (namespace account) (GoStrings.ReplaceAll name "-" "_") "data")
         (jsonMarshal data)).
Proof.
  intros Hnew Hstart Hcon.
  destruct (NewGateway_fields _ _ _ _ _ _ Hnew)
    as (Hn & _ & Hd & _ & c & Hc & Hdt & _).
  unfold Gateway_Start in Hstart. rewrite Hc in Hstart. cbn in Hstart.
  injection Hstart as <- _.
  unfold SendData, Publish. cbn. rewrite Hcon, Hdt, Hd, Hn. reflexivity.
Qed.

Lemma X24_SendData_after_Start_witness :
  exists g g' evs,
    @NewGateway sample_platform "my-gw" "http://deviot" "broker" "me@x" None
    = Normal (inl g)
    /\ Gateway_Start g online_client None = Normal (g', evs, None)
    /\ @SendData sample_platform g' (<["temperature" := VFloat64 seven]> ∅)
       = Normal ([MqttPublish "/deviot/mex/my_gw/data" 0 false "{}"], None).
Proof.
  destruct (@NewGateway sample_platform "my-gw" "http://deviot" "broker" "me@x" None)
    as [[g|e]|p] eqn:E; [|vm_compute in E; discriminate..].
  destruct (Gateway_Start g online_client None) as [[[g' evs] [e|]]|p] eqn:S;
    [vm_compute in E; injection E as <-; vm_compute in S; discriminate| |
     vm_compute in E; injection E as <-; vm_compute in S; discriminate].
  exists g, g', evs. split; [reflexivity|]. split; [exact S|].
  apply (@X24_SendData_after_Start sample_platform _ _ _ _ _ _ _ _ _ _ E S).
  reflexivity.
Defined.

(** X25. [Start] of a gateway from [NewGateway] builds the client for the
    connector's server under the gateway's stored name, with automatic
    reconnection and a session that is kept; when the connection fails, it
    returns that error, spawns no registration loop and does not log the
    start; when it succeeds, it spawns the loop exactly once and returns no
    error. Either way the connector has a client afterwards. *)
Theorem X25_Start `{Platform}
    (name server connServer account : string)
    (opts : option (gmap string value)) (g : Gateway) (cl : Client)
    (connectErr : option error) :
  NewGateway name server connServer account opts = Normal (inl g) ->
  exists g' evs,
    Gateway_Start g cl connectErr = Normal (g', evs, connectErr)
    /\ (exists c', connector g' = Some c' /\ client c' = Some cl)
    /\ (exists rest,
          evs = NewClient {| Broker := connServer;
                             ClientID := GoStrings.ReplaceAll name "-" "_";
                             AutoReconnect := true; CleanSession := false |}
                :: Connect :: rest)
    /\ length (List.filter is_spawn evs)
       = match connectErr with Some _ => 0%nat | None => 1%nat end
    /\ (In (LifecycleLog (LogStarted (Name g))) evs <-> connectErr = None).
Proof.
  intros Hnew.
  destruct (NewGateway_state _ _ _ _ _ _ Hnew)
    as (_ & _ & _ & _ & (c & Hc & _ & Hserver & _) & _).
  destruct (NewGateway_fields _ _ _ _ _ _ Hnew) as (Hn & _).
  unfold Gateway_Start. rewrite Hc.
  unfold MqttConnector_Start, start_options. rewrite Hserver, Hn.
  destruct connectErr as [err|]; eexists _, _; (split; [reflexivity|]); cbn.
  - split; [eauto|]. split; [eauto|]. split; [reflexivity|].
    split; [|discriminate].
    intros [Hin | [Hin | []]]; discriminate.
  - split; [eauto|]. split; [eauto|]. split; [reflexivity|].
    split; [reflexivity|]. intros _. auto 6.
Qed.

Lemma X25_Start_witness :
  exists g g' evs,
    @NewGateway sample_platform "gw" "http://deviot" "broker" "me" None
    = Normal (inl g)
    /\ Gateway_Start g offline_client (Some (LibraryError "network unreachable"))
       = Normal (g', evs, Some (LibraryError "network unreachable"))
    /\ List.filter is_spawn evs = [].
Proof.
  destruct (@NewGateway sample_platform "gw" "http://deviot" "broker" "me" None)
    as [[g|e]|p] eqn:E; [|vm_compute in E; discriminate..].
  destruct (@X25_Start sample_platform _ _ _ _ _ g offline_client
              (Some (LibraryError "network unreachable")) E)
    as (g' & evs & Hs & _ & _ & Hspawn & _).
  exists g, g', evs. split; [reflexivity|]. split; [exact Hs|].
  destruct (List.filter is_spawn evs); [reflexivity|discriminate].
Defined.

(** X26. [Stop] of a gateway that was never started panics, after it has
    logged the stop, because the connector has no client yet; after a
    [Start], failed or not, it disconnects with a quiesce time of 250 and
    returns no error. *)
Theorem X26_Stop `{Platform}
    (name server connServer account : string)
    (opts : option (gmap string value)) (g : Gateway) :
  NewGateway name server connServer account opts = Normal (inl g) ->
  Gateway_Stop g
  = ([LifecycleLog (LogStopped (Name g))], Panics (PanicError NilDereference))
  /\ (forall cl connectErr g' evs err,
        Gateway_Start g cl connectErr = Normal (g', evs, err) ->
        Gateway_Stop g'
        = ([LifecycleLog (LogStopped (Name g')); Disconnect 250], Normal None)).
Proof.
  intros Hnew.
  destruct (NewGateway_state _ _ _ _ _ _ Hnew)
    as (_ & _ & _ & _ & (c & Hc & Hcl & _) & _).
  split.
  - unfold Gateway_Stop, MqttConnector_Stop. rewrite Hc, Hcl. reflexivity.
  - intros cl connectErr g' evs err Hstart.
    unfold Gateway_Start in Hstart. rewrite Hc in Hstart.
    destruct connectErr; cbn in Hstart; injection Hstart as <- _ _; reflexivity.
Qed.

Lemma X26_Stop_witness :
  exists g,
    @NewGateway sample_platform "gw" "http://deviot" "broker" "me" None
    = Normal (inl g)
    /\ Gateway_Stop g
       = ([LifecycleLog (LogStopped "gw")], Panics (PanicError NilDereference)).
Proof.
  destruct (@NewGateway sample_platform "gw" "http://deviot" "broker" "me" None)
    as [[g|e]|p] eqn:E; [|vm_compute in E; discriminate..].
  exists g. split; [reflexivity|].
  destruct (@X26_Stop sample_platform _ _ _ _ _ g E) as [Hstop _].
  rewrite Hstop. vm_compute in E. injection E as <-. reflexivity.
Defined.

(** ** The registration loop, further *)

Section MoreStartFacts.
Context `{Platform}.

Lemma setRegistered_twice g b b' :
  setRegistered (setRegistered g b) b' = setRegistered g b'.
Proof. destruct b, b'; reflexivity. Qed.


Lemma gateway_after_last rs :
  forall first g,
    newRequestOK (registration_url g) = true ->
    gateway_after first g rs
    = match last rs with
      | Some r => setRegistered g (succeeded r)
      | None => g
      end.
Proof.
  induction rs as [|r rs IH]; intros first g Hok; [reflexivity|].
  unfold gateway_after. rewrite supervise_cons by assumption. cbn [fst].
  rewrite IH by (by rewrite registration_url_setRegistered).
  rewrite last_cons. destruct (last rs) as [rl|]; [|reflexivity].
  apply setRegistered_twice.
Qed.



Lemma iterations_steady rs :
  forall g b,
    newRequestOK (registration_url g) = true ->
    IsRegistered g = b ->
    Forall (fun r => succeeded r = b) rs ->
    count_logs <$> iterations false g rs = replicate (length rs) 0%nat.
Proof.
  induction rs as [|r rs IH]; intros g b Hok Hg Hall; [reflexivity|].
  inversion Hall as [|r' rs' Hr Hrest]; subst r' rs'.
  unfold iterations. rewrite supervise_cons by assumption. cbn [fst snd].
  cbn [fmap list_fmap length replicate].
  rewrite count_logs_post, heartbeat_logs_count, Hg, Hr.
  rewrite xorb_nilpotent. cbn [orb]. f_equal.
  apply (IH _ b).
  - by rewrite registration_url_setRegistered.
  - apply IsRegistered_setRegistered.
  - exact Hrest.
Qed.

End MoreStartFacts.

(** X27. After any number of heartbeats the registration state is the
    outcome of the last POST alone, and the loop has changed nothing of the
    gateway but that flag: registry, names and topics are as before. *)
Theorem X27_state_is_last_outcome `{Platform} (g : Gateway)
    (rs : list post_result) :
  newRequestOK (registration_url g) = true ->
  gateway_after true g rs
  = match last rs with
    | Some r => setRegistered g (succeeded r)
    | None => g
    end
  /\ (forall r, last rs = Some r ->
        IsRegistered (gateway_after true g rs) = succeeded r)
  /\ Things (gateway_after true g rs) = Things g
  /\ Name (gateway_after true g rs) = Name g
  /\ connector (gateway_after true g rs) = connector g.
Proof.
  intros Hok. rewrite (gateway_after_last rs true g Hok).
  split; [reflexivity|]. split.
  - intros r ->. apply IsRegistered_setRegistered.
  - destruct (last rs) as [r|]; [destruct (succeeded r)|]; repeat split.
Qed.

Lemma X27_state_is_last_outcome_witness :
  IsRegistered
    (@gateway_after sample_platform true empty_gateway
       [Response 200 "200 OK"; DoError (LibraryError "connection refused")])
  = false.
Proof.
  destruct (@X27_state_is_last_outcome sample_platform empty_gateway
              [Response 200 "200 OK"; DoError (LibraryError "connection refused")]
              eq_refl) as (_ & Hlast & _).
  apply (Hlast (DoError (LibraryError "connection refused"))). reflexivity.
Defined.



(** X29. However many heartbeats in a row have the outcome of the first
    one, only the first is logged: the loop reports a run of failures, or
    of successes, once. *)
Theorem X29_run_logged_once `{Platform} (g : Gateway) (r0 : post_result)
    (rs : list post_result) :
  newRequestOK (registration_url g) = true ->
  Forall (fun r => succeeded r = succeeded r0) rs ->
  count_logs <$> iterations true g (r0 :: rs)
  = 1%nat :: replicate (length rs) 0%nat.
Proof.
  intros Hok Hall. unfold iterations.
  rewrite supervise_cons by assumption. cbn [fst snd fmap list_fmap].
  rewrite count_logs_post, heartbeat_logs_count. cbn [orb]. f_equal.
  apply (iterations_steady rs _ (succeeded r0)).
  - by rewrite registration_url_setRegistered.
  - apply IsRegistered_setRegistered.
  - exact Hall.
Qed.

Lemma X29_run_logged_once_witness :
  count_logs <$>
    @iterations sample_platform true empty_gateway
      [Response 200 "200 OK"; Response 204 "204 No Content"; Response 302 "302 Found"]
  = [1%nat; 0%nat; 0%nat].
Proof.
  apply (@X29_run_logged_once sample_platform empty_gateway
           (Response 200 "200 OK")
           [Response 204 "204 No Content"; Response 302 "302 Found"]);
    [reflexivity|repeat constructor].
Defined.

(** X30. The things listed in the registration document are exactly the
    things of the registry, one per entry; a thing just registered is among
    them and a thing deregistered is counted no more. *)
Theorem X30_sensors_are_the_registry (g : Gateway) :
  (forall t, t ∈ sensors_of g <-> exists id w, Things g !! id = Some w /\ thing w = t)
  /\ length (sensors_of g) = size (Things g)
  /\ (forall id name i elem,
        Things g !! id = None -> Reflect.Elem (dynType i) = Some elem ->
        Init i (blank_thing id name (derive_kind elem))
          ∈ sensors_of (gateway (Register g id name (Some i))))
  /\ (forall id w,
        Things g !! id = Some w ->
        S (length (sensors_of (gateway (Deregister g id)))) = length (sensors_of g)).
Proof.
  assert (Hmem : forall g' t,
    t ∈ sensors_of g' <-> exists id w, Things g' !! id = Some w /\ thing w = t).
  { intros g' t. unfold sensors_of. rewrite list_elem_of_fmap. split.
    - intros ([id w] & -> & Hin). apply elem_of_map_to_list in Hin. eauto.
    - intros (id & w & Hw & <-). exists (id, w). split; [reflexivity|].
      apply elem_of_map_to_list. exact Hw. }
  assert (Hlen : forall g', length (sensors_of g') = size (Things g')).
  { intros g'. unfold sensors_of. rewrite length_fmap. apply length_map_to_list. }
  split; [apply Hmem|]. split; [apply Hlen|]. split.
  - intros id name i elem Hid He. apply Hmem. eexists id, _.
    rewrite (Register_fresh g id name i elem Hid He). cbn.
    split; [apply lookup_insert_eq|reflexivity].
  - intros id w Hw. rewrite !Hlen. unfold Deregister. rewrite Hw. cbn.
    rewrite map_size_delete, Hw.
    assert (size (Things g) <> 0%nat); [|lia].
    intros Hz. apply map_size_empty_inv in Hz. rewrite Hz in Hw.
    rewrite lookup_empty in Hw. discriminate.
Qed.

Lemma X30_sensors_are_the_registry_witness :
  Init (lamp "SetOn" "SetOn") (blank_thing "lamp1" "Lamp" "lamp")
    ∈ sensors_of (lamp_gateway "SetOn" "SetOn").
Proof.
  apply (X30_sensors_are_the_registry empty_gateway) with
    (id := "lamp1") (name := "Lamp") (i := lamp "SetOn" "SetOn")
    (elem := Reflect.basic Reflect.Struct "main.Lamp"); reflexivity.
Defined.
